(** * NBApredict: the prediction engine of [predict.py]

    A shallow embedding of [predict.py] and of the constants of
    [helpers/br_references.py] it reads, with the properties of the
    prediction engine proved over it.

    Conventions of the embedding.
    - Python floats are idealised as real numbers ([R]): rounding,
      infinities and NaN are outside the model.
    - Python strings are ASCII text ([string]); [str.lower] is the ASCII
      lower-casing.
    - A pandas [DataFrame] is the list of its labelled columns.
    - A Python call either returns a value or raises: [result].
    - A Python dict is the list of its items in insertion order.
    - A printed sentence is recorded by its template and the values put
      into it. *)

From Stdlib Require Import Reals Lra Lia ZArith List String Ascii Bool.
From Stdlib Require Import RiemannInt Ranalysis Rpower DecimalString Sorted.
Import ListNotations.

(* ===================================================================== *)
(** * Part I: the model *)
(* ===================================================================== *)

(* ===================================================================== *)
(** ** The normal distribution, as [scipy.stats.norm] documents it *)
(* ===================================================================== *)

Module Norm.

Local Open Scope R_scope.

(** Unnormalised density of the standard normal law: [exp (- x^2 / 2)]. *)
Definition gauss (x : R) : R := exp (- (x * x) / 2).

(** [gauss] is continuous, hence integrable on every interval, in either
    direction. *)
Definition gauss_integrable (a b : R) : Riemann_integrable gauss a b.
Proof.
  assert (Hc : continuity gauss).
  { unfold gauss.
    apply (continuity_comp (fun x => - (x * x) / 2) exp).
    - unfold Rdiv. reg.
    - apply derivable_continuous, derivable_exp. }
  destruct (Rle_dec a b) as [Hab | Hab].
  - apply continuity_implies_RiemannInt; [exact Hab|].
    intros x _. apply Hc.
  - apply RiemannInt_P1, continuity_implies_RiemannInt; [lra|].
    intros x _. apply Hc.
Defined.

(** [area a b] is the integral of [gauss] from [a] to [b]. *)
Definition area (a b : R) : R := RiemannInt (gauss_integrable a b).

(** The standard normal CDF, [Phi z = 1/2 + (1/sqrt(2 pi)) * area 0 z]
    (equivalently [1/2 * (1 + erf (z / sqrt 2))]). *)
Definition Phi (z : R) : R := 1 / 2 + area 0 z / sqrt (2 * PI).

(** [scipy.stats.norm(loc, scale).cdf(x)]: the location-scale family, for
    a scale above zero. *)
Definition cdf (loc scale x : R) : R := Phi ((x - loc) / scale).

(** [scipy.stats.norm(loc, scale).sf(x)]: the survival function, [1 - cdf]. *)
Definition sf (loc scale x : R) : R := 1 - cdf loc scale x.

End Norm.

(* ===================================================================== *)
(** ** [line_probability] *)
(* ===================================================================== *)

(** What [line_probability] hands back: a 2-tuple of the probability and
    the tag ["cdf"] or ["sf"], a bare float, or [None] when no branch of
    the [if]/[elif] chain is taken. *)
Inductive lp_value : Type :=
| LPPair (probability : R) (function : string)
| LPScalar (probability : R)
| LPNone.

Definition line_probability (prediction line std : R) : lp_value :=
  let line_prediction := (-1 * line)%R in
  if Rlt_dec line_prediction prediction then
    LPPair (Norm.cdf prediction std line_prediction) "cdf"%string
  else if Rlt_dec prediction line_prediction then
    LPPair (Norm.sf prediction std line_prediction) "sf"%string
  else if Req_dec_T prediction line_prediction then
    LPScalar (1 / 2)%R
  else LPNone.

(** The probability carried by a value of [line_probability], if any. *)
Definition lp_probability (v : lp_value) : option R :=
  match v with
  | LPPair p _ => Some p
  | LPScalar p => Some p
  | LPNone => None
  end.

(* ===================================================================== *)
(** ** Python outcomes *)
(* ===================================================================== *)

(** The exceptions the modelled code can raise. [PyException msg] is the
    plain [Exception(msg)] of [predict_games_on_day]. *)
Inductive exn : Type :=
| AttributeError
| KeyError
| TypeError
| ValueError
| OverflowError
| PyException (msg : string).

(** The outcome of a call: a returned value or a raised exception. *)
Inductive result (A : Type) : Type :=
| Ok (a : A)
| Raise (e : exn).

Arguments Ok {A} a.
Arguments Raise {A} e.

Definition bind {A B : Type} (r : result A) (k : A -> result B) : result B :=
  match r with
  | Ok a => k a
  | Raise e => Raise e
  end.

Notation "x <- r ;; k" := (bind r (fun x => k))
  (at level 61, r at next level, right associativity).

Definition is_ok {A : Type} (r : result A) : bool :=
  match r with Ok _ => true | Raise _ => false end.

(** A Python object passed where a team name is expected: a [str], a list
    of [str] (what the no-lines loop passes), or [None]. *)
Inductive pyval : Type :=
| PyStr (s : string)
| PyStrList (l : list string)
| PyNone.

(* ===================================================================== *)
(** ** Strings *)
(* ===================================================================== *)

Local Open Scope string_scope.

(** [c.lower()] for one ASCII character: ['A'..'Z'] move to ['a'..'z']. *)
Definition lower_ascii (c : ascii) : ascii :=
  let n := nat_of_ascii c in
  if (65 <=? n)%nat && (n <=? 90)%nat then ascii_of_nat (n + 32) else c.

(** [s.lower()]. *)
Fixpoint lower (s : string) : string :=
  match s with
  | EmptyString => EmptyString
  | String c rest => String (lower_ascii c) (lower rest)
  end.

(** The method call [team.lower()]: only a [str] has the attribute. *)
Definition py_lower (v : pyval) : result string :=
  match v with
  | PyStr s => Ok (lower s)
  | PyStrList _ => Raise AttributeError
  | PyNone => Raise AttributeError
  end.

(** Stable insertion sort, used for column labels and join keys. *)
Section Sort.
Variable A : Type.
Variable leb : A -> A -> bool.

Fixpoint insert_sorted (x : A) (l : list A) : list A :=
  match l with
  | [] => [x]
  | y :: rest => if leb x y then x :: l else y :: insert_sorted x rest
  end.

Fixpoint sort (l : list A) : list A :=
  match l with
  | [] => []
  | x :: rest => insert_sorted x (sort rest)
  end.
End Sort.

Arguments insert_sorted {A} leb x l.
Arguments sort {A} leb l.

(* ===================================================================== *)
(** ** [br_references]: the constants read by [predict.py] *)
(* ===================================================================== *)

Module br_references.

(** [class Team(Enum)], members in definition order. *)
Inductive Team : Type :=
| ATLANTA_HAWKS | BOSTON_CELTICS | BROOKLYN_NETS | CHARLOTTE_HORNETS
| CHICAGO_BULLS | CLEVELAND_CAVALIERS | DALLAS_MAVERICKS | DENVER_NUGGETS
| DETROIT_PISTONS | GOLDEN_STATE_WARRIORS | HOUSTON_ROCKETS | INDIANA_PACERS
| LOS_ANGELES_CLIPPERS | LOS_ANGELES_LAKERS | MEMPHIS_GRIZZLIES | MIAMI_HEAT
| MILWAUKEE_BUCKS | MINNESOTA_TIMBERWOLVES | NEW_ORLEANS_PELICANS
| NEW_YORK_KNICKS | OKLAHOMA_CITY_THUNDER | ORLANDO_MAGIC | PHILADELPHIA_76ERS
| PHOENIX_SUNS | PORTLAND_TRAIL_BLAZERS | SACRAMENTO_KINGS | SAN_ANTONIO_SPURS
| TORONTO_RAPTORS | UTAH_JAZZ | WASHINGTON_WIZARDS
(* deprecated teams *)
| CHARLOTTE_BOBCATS | NEW_JERSEY_NETS | NEW_ORLEANS_HORNETS
| NEW_ORLEANS_OKLAHOMA_CITY_HORNETS | SEATTLE_SUPERSONICS | VANCOUVER_GRIZZLIES.

(** [member.value]. *)
Definition value (t : Team) : string :=
  match t with
  | ATLANTA_HAWKS => "ATLANTA HAWKS"
  | BOSTON_CELTICS => "BOSTON CELTICS"
  | BROOKLYN_NETS => "BROOKLYN NETS"
  | CHARLOTTE_HORNETS => "CHARLOTTE HORNETS"
  | CHICAGO_BULLS => "CHICAGO BULLS"
  | CLEVELAND_CAVALIERS => "CLEVELAND CAVALIERS"
  | DALLAS_MAVERICKS => "DALLAS MAVERICKS"
  | DENVER_NUGGETS => "DENVER NUGGETS"
  | DETROIT_PISTONS => "DETROIT PISTONS"
  | GOLDEN_STATE_WARRIORS => "GOLDEN STATE WARRIORS"
  | HOUSTON_ROCKETS => "HOUSTON ROCKETS"
  | INDIANA_PACERS => "INDIANA PACERS"
  | LOS_ANGELES_CLIPPERS => "LOS ANGELES CLIPPERS"
  | LOS_ANGELES_LAKERS => "LOS ANGELES LAKERS"
  | MEMPHIS_GRIZZLIES => "MEMPHIS GRIZZLIES"
  | MIAMI_HEAT => "MIAMI HEAT"
  | MILWAUKEE_BUCKS => "MILWAUKEE BUCKS"
  | MINNESOTA_TIMBERWOLVES => "MINNESOTA TIMBERWOLVES"
  | NEW_ORLEANS_PELICANS => "NEW ORLEANS PELICANS"
  | NEW_YORK_KNICKS => "NEW YORK KNICKS"
  | OKLAHOMA_CITY_THUNDER => "OKLAHOMA CITY THUNDER"
  | ORLANDO_MAGIC => "ORLANDO MAGIC"
  | PHILADELPHIA_76ERS => "PHILADELPHIA 76ERS"
  | PHOENIX_SUNS => "PHOENIX SUNS"
  | PORTLAND_TRAIL_BLAZERS => "PORTLAND TRAIL BLAZERS"
  | SACRAMENTO_KINGS => "SACRAMENTO KINGS"
  | SAN_ANTONIO_SPURS => "SAN ANTONIO SPURS"
  | TORONTO_RAPTORS => "TORONTO RAPTORS"
  | UTAH_JAZZ => "UTAH JAZZ"
  | WASHINGTON_WIZARDS => "WASHINGTON WIZARDS"
  | CHARLOTTE_BOBCATS => "CHARLOTTE BOBCATS"
  | NEW_JERSEY_NETS => "NEW JERSEY NETS"
  | NEW_ORLEANS_HORNETS => "NEW ORLEANS HORNETS"
  | NEW_ORLEANS_OKLAHOMA_CITY_HORNETS => "NEW ORLEANS/OKLAHOMA CITY HORNETS"
  | SEATTLE_SUPERSONICS => "SEATTLE SUPERSONICS"
  | VANCOUVER_GRIZZLIES => "VANCOUVER GRIZZLIES"
  end.

(** Iterating over the enumeration yields its members in definition order. *)
Definition members : list Team :=
  [ ATLANTA_HAWKS; BOSTON_CELTICS; BROOKLYN_NETS; CHARLOTTE_HORNETS;
    CHICAGO_BULLS; CLEVELAND_CAVALIERS; DALLAS_MAVERICKS; DENVER_NUGGETS;
    DETROIT_PISTONS; GOLDEN_STATE_WARRIORS; HOUSTON_ROCKETS; INDIANA_PACERS;
    LOS_ANGELES_CLIPPERS; LOS_ANGELES_LAKERS; MEMPHIS_GRIZZLIES; MIAMI_HEAT;
    MILWAUKEE_BUCKS; MINNESOTA_TIMBERWOLVES; NEW_ORLEANS_PELICANS;
    NEW_YORK_KNICKS; OKLAHOMA_CITY_THUNDER; ORLANDO_MAGIC; PHILADELPHIA_76ERS;
    PHOENIX_SUNS; PORTLAND_TRAIL_BLAZERS; SACRAMENTO_KINGS; SAN_ANTONIO_SPURS;
    TORONTO_RAPTORS; UTAH_JAZZ; WASHINGTON_WIZARDS;
    CHARLOTTE_BOBCATS; NEW_JERSEY_NETS; NEW_ORLEANS_HORNETS;
    NEW_ORLEANS_OKLAHOMA_CITY_HORNETS; SEATTLE_SUPERSONICS;
    VANCOUVER_GRIZZLIES ].

(** The offensive and defensive four factors. *)
Definition four_factors : list string :=
  [ "efg_pct"; "tov_pct"; "orb_pct";
    "ft_rate"; "opp_efg_pct"; "opp_tov_pct";
    "drb_pct"; "opp_ft_rate" ].

(** [TEAM_ABBREVIATIONS_TO_TEAM], a dict in the order it is written. *)
Definition TEAM_ABBREVIATIONS_TO_TEAM : list (string * Team) :=
  [ ("ATL", ATLANTA_HAWKS); ("BOS", BOSTON_CELTICS); ("BRK", BROOKLYN_NETS);
    ("CHI", CHICAGO_BULLS); ("CHO", CHARLOTTE_HORNETS);
    ("CLE", CLEVELAND_CAVALIERS); ("DAL", DALLAS_MAVERICKS);
    ("DEN", DENVER_NUGGETS); ("DET", DETROIT_PISTONS);
    ("GSW", GOLDEN_STATE_WARRIORS); ("HOU", HOUSTON_ROCKETS);
    ("IND", INDIANA_PACERS); ("LAC", LOS_ANGELES_CLIPPERS);
    ("LAL", LOS_ANGELES_LAKERS); ("MEM", MEMPHIS_GRIZZLIES);
    ("MIA", MIAMI_HEAT); ("MIL", MILWAUKEE_BUCKS);
    ("MIN", MINNESOTA_TIMBERWOLVES); ("NOP", NEW_ORLEANS_PELICANS);
    ("NYK", NEW_YORK_KNICKS); ("OKC", OKLAHOMA_CITY_THUNDER);
    ("ORL", ORLANDO_MAGIC); ("PHI", PHILADELPHIA_76ERS); ("PHO", PHOENIX_SUNS);
    ("POR", PORTLAND_TRAIL_BLAZERS); ("SAC", SACRAMENTO_KINGS);
    ("SAS", SAN_ANTONIO_SPURS); ("TOR", TORONTO_RAPTORS); ("UTA", UTAH_JAZZ);
    ("WAS", WASHINGTON_WIZARDS);
    (* deprecated teams *)
    ("NJN", NEW_JERSEY_NETS); ("NOH", NEW_ORLEANS_HORNETS);
    ("NOK", NEW_ORLEANS_OKLAHOMA_CITY_HORNETS); ("CHA", CHARLOTTE_BOBCATS);
    ("CHH", CHARLOTTE_HORNETS); ("SEA", SEATTLE_SUPERSONICS);
    ("VAN", VANCOUVER_GRIZZLIES) ].

(** [team_to_team_abbreviation], a dict in the order it is written. *)
Definition team_to_team_abbreviation : list (string * string) :=
  [ ("ATLANTA HAWKS", "ATL"); ("BOSTON CELTICS", "BOS");
    ("BROOKLYN NETS", "BRK"); ("CHARLOTTE HORNETS", "CHO");
    ("CHICAGO BULLS", "CHI"); ("CLEVELAND CAVALIERS", "CLE");
    ("DALLAS MAVERICKS", "DAL"); ("DENVER NUGGETS", "DEN");
    ("DETROIT PISTONS", "DET"); ("GOLDEN STATE WARRIORS", "GSW");
    ("HOUSTON ROCKETS", "HOU"); ("INDIANA PACERS", "IND");
    ("LOS ANGELES CLIPPERS", "LAC"); ("LOS ANGELES LAKERS", "LAL");
    ("MEMPHIS GRIZZLIES", "MEM"); ("MIAMI HEAT", "MIA");
    ("MILWAUKEE BUCKS", "MIL"); ("MINNESOTA TIMBERWOLVES", "MIN");
    ("NEW ORLEANS PELICANS", "NOP"); ("NEW YORK KNICKS", "NYK");
    ("OKLAHOMA CITY THUNDER", "OKC"); ("ORLANDO MAGIC", "ORL");
    ("PHILADELPHIA 76ERS", "PHI"); ("PHOENIX SUNS", "PHO");
    ("PORTLAND TRAIL BLAZERS", "POR"); ("SACRAMENTO KINGS", "SAC");
    ("SAN ANTONIO SPURS", "SAS"); ("TORONTO RAPTORS", "TOR");
    ("UTAH JAZZ", "UTA"); ("WASHINGTON WIZARDS", "WAS");
    (* deprecated teams *)
    ("CHARLOTTE BOBCATS", "CHA"); ("NEW JERSEY NETS", "NJN");
    ("NEW ORLEANS HORNETS", "NOH");
    ("NEW ORLEANS/OKLAHOMA CITY HORNETS", "NOK");
    ("SEATTLE SUPERSONICS", "SEA"); ("VANCOUVER GRIZZLIES", "VAN") ].

(** Column headers for the misc_stats table. *)
Definition data_stat_headers : list string :=
  [ "team_name"; "age"; "wins";
    "losses"; "wins_pyth"; "losses_pyth";
    "mov"; "sos"; "srs"; "off_rtg";
    "def_rtg"; "pace"; "fta_per_fga_pct";
    "fg3a_per_fga_pct"; "ts_pct";
    "efg_pct"; "tov_pct"; "orb_pct";
    "ft_rate"; "opp_efg_pct"; "opp_tov_pct";
    "drb_pct"; "opp_ft_rate"; "arena_name";
    "attendance"; "attendance_per_g" ].

End br_references.

(* ===================================================================== *)
(** ** pandas: cells, series and frames *)
(* ===================================================================== *)

(** One entry of a frame: an integer, a float, a string, or a missing
    value. *)
Inductive cell : Type :=
| CInt (z : Z)
| CFloat (x : R)
| CStr (s : string)
| CNaN.

Definition is_numeric (c : cell) : bool :=
  match c with
  | CInt _ | CFloat _ => true
  | CStr _ | CNaN => false
  end.

(** Python's [==] on cells: numbers compare by value, a missing value is
    equal to nothing. *)
Definition cell_eqb (a b : cell) : bool :=
  match a, b with
  | CInt x, CInt y => Z.eqb x y
  | CFloat x, CFloat y => if Req_dec_T x y then true else false
  | CInt x, CFloat y => if Req_dec_T (IZR x) y then true else false
  | CFloat x, CInt y => if Req_dec_T x (IZR y) then true else false
  | CStr x, CStr y => String.eqb x y
  | _, _ => false
  end.

(** Python's [<=] on cells of one kind, used to order join keys. *)
Definition cell_leb (a b : cell) : bool :=
  match a, b with
  | CInt x, CInt y => Z.leb x y
  | CFloat x, CFloat y => if Rle_dec x y then true else false
  | CInt x, CFloat y => if Rle_dec (IZR x) y then true else false
  | CFloat x, CInt y => if Rle_dec x (IZR y) then true else false
  | CStr x, CStr y => String.leb x y
  | _, _ => true
  end.

Definition Series : Type := list cell.

(** A frame, column by column: each label with its series. The series of a
    well-formed frame all have the same length, the number of rows. *)
Definition DataFrame : Type := list (string * Series).

Definition df_columns (df : DataFrame) : list string := map fst df.

(** [len(df)]. *)
Definition df_len (df : DataFrame) : nat :=
  match df with
  | [] => 0
  | (_, s) :: _ => List.length s
  end.

Definition df_wf (df : DataFrame) : Prop :=
  Forall (fun col => List.length (snd col) = df_len df) df.

(** The series under a label, if the frame has one. *)
Fixpoint df_get (df : DataFrame) (name : string) : option Series :=
  match df with
  | [] => None
  | (n, s) :: rest => if String.eqb n name then Some s else df_get rest name
  end.

Definition df_has (df : DataFrame) (name : string) : bool :=
  match df_get df name with Some _ => true | None => false end.

(** [df[name]]. *)
Definition df_getitem (df : DataFrame) (name : string) : result Series :=
  match df_get df name with
  | Some s => Ok s
  | None => Raise KeyError
  end.

(** [df.name]. *)
Definition df_getattr (df : DataFrame) (name : string) : result Series :=
  match df_get df name with
  | Some s => Ok s
  | None => Raise AttributeError
  end.

(** [df[names]] for a list of labels: the named columns, in that order. *)
Fixpoint df_getitem_list (df : DataFrame) (names : list string)
  : result DataFrame :=
  match names with
  | [] => Ok []
  | n :: rest =>
      s <- df_getitem df n ;;
      cols <- df_getitem_list df rest ;;
      Ok ((n, s) :: cols)
  end.

(** Selection of the entries of a series by a boolean mask. *)
Fixpoint mask_select (mask : list bool) (s : Series) : Series :=
  match mask, s with
  | b :: mask', c :: s' =>
      if b then c :: mask_select mask' s' else mask_select mask' s'
  | _, _ => []
  end.

(** [df[mask]] / [df.loc[mask]]: the rows where the mask is [True]. *)
Definition df_mask (df : DataFrame) (mask : list bool) : DataFrame :=
  map (fun col => (fst col, mask_select mask (snd col))) df.

(** [df.rename(f, axis='columns')]. *)
Definition df_rename (f : string -> string) (df : DataFrame) : DataFrame :=
  map (fun col => (f (fst col), snd col)) df.

(** [df[name] = v] for a scalar [v]: the column is overwritten when the
    label exists and appended otherwise. *)
Definition df_setitem (df : DataFrame) (name : string) (v : cell)
  : DataFrame :=
  if df_has df name then
    map (fun col => if String.eqb (fst col) name
                    then (fst col, repeat v (List.length (snd col))) else col) df
  else (df ++ [(name, repeat v (df_len df))])%list.

(** [df.drop([name], axis=1)]. *)
Definition df_drop (df : DataFrame) (name : string) : result DataFrame :=
  if df_has df name then
    Ok (filter (fun col => negb (String.eqb (fst col) name)) df)
  else Raise KeyError.

(** [df.sort_index(axis=1)]: the columns ordered by label. *)
Definition df_sort_index_columns (df : DataFrame) : DataFrame :=
  sort (fun a b => String.leb (fst a) (fst b)) df.

(** The rows of a series picked by position. *)
Definition take (idx : list nat) (s : Series) : Series :=
  map (fun i => nth i s CNaN) idx.

(** The pairs (left row, right row) of an inner join on equal keys, ordered
    by key ([sort=True]); rows with equal keys keep their order. *)
Definition join_pairs (lk rk : Series) : list (nat * nat) :=
  let pairs :=
    flat_map (fun i =>
      map (fun j => (i, j))
          (filter (fun j => cell_eqb (nth i lk CNaN) (nth j rk CNaN))
                  (seq 0 (List.length rk))))
      (seq 0 (List.length lk)) in
  sort (fun p q => cell_leb (nth (fst p) lk CNaN) (nth (fst q) lk CNaN)) pairs.

(** [pd.merge(left, right, on=key, sort=True)]: the key column once, a
    label that both sides carry gets the suffix [_x] or [_y]. *)
Definition pd_merge (left right : DataFrame) (on : string)
  : result DataFrame :=
  lk <- df_getitem left on ;;
  rk <- df_getitem right on ;;
  let pairs := join_pairs lk rk in
  let li := map fst pairs in
  let ri := map snd pairs in
  let lcol col :=
    let n := fst col in
    ((if negb (String.eqb n on) && df_has right n then n ++ "_x" else n),
     take li (snd col)) in
  let rcol col :=
    let n := fst col in
    ((if df_has left n then n ++ "_y" else n), take ri (snd col)) in
  Ok (map lcol left
      ++ map rcol (filter (fun col => negb (String.eqb (fst col) on)) right))%list.

(* ===================================================================== *)
(** ** [four_factor_regression]: what [predict.py] uses of it *)
(* ===================================================================== *)

Module lm.

(** Modelled from the spec: [four_factor_regression.append_h] is not part
    of the sources at hand; the extractor renames each selected column
    by appending [_h] when the role is home. *)
Definition append_h (s : string) : string := s ++ "_h".

(** Modelled from the spec: [four_factor_regression.append_a] is not part
    of the sources at hand; the extractor renames each selected column
    by appending [_a] when the role is away. *)
Definition append_a (s : string) : string := s ++ "_a".

(** The fitted regression as [predict.py] uses it:
    [reg.results.predict(pred_df).values[0]] and [np.std(reg.residuals)]. *)
Record Regression : Type := {
  results_predict : DataFrame -> result R;
  residuals_std : R
}.

End lm.

(* ===================================================================== *)
(** ** [predict.py]: resolver, extractor and feature builder *)
(* ===================================================================== *)

Definition get_prediction (reg : lm.Regression) (pred_df : DataFrame)
  : result R :=
  lm.results_predict reg pred_df.

(** The [for] loop of [get_team_name] over the remaining members; falling
    off the end of the loop returns [None]. *)
Fixpoint get_team_name_loop (team : pyval) (teams : list br_references.Team)
  : result pyval :=
  match teams with
  | [] => Ok PyNone
  | team_name :: rest =>
      t <- py_lower team ;;
      if String.eqb t (lower (br_references.value team_name))
      then Ok (PyStr (br_references.value team_name))
      else get_team_name_loop team rest
  end.

Definition get_team_name (team : pyval) : result pyval :=
  get_team_name_loop team br_references.members.

Definition is_str (c : cell) : bool :=
  match c with
  | CStr _ => true
  | _ => false
  end.

(** [series.str]: the string accessor. pandas gives it to a column of
    object dtype, which is what a column with a string among its entries
    is (and a column without entries); on a numeric column, one that holds
    entries but no string, it raises [AttributeError]. *)
Definition series_str (s : Series) : result Series :=
  match s with
  | [] => Ok s
  | _ :: _ => if existsb is_str s then Ok s else Raise AttributeError
  end.

(** [names.str.lower() == team.lower()], entry by entry, once the accessor
    is there: an entry that is not a string lowers to a missing value and
    matches nothing. *)
Definition team_mask (names : Series) (team_lower : string) : list bool :=
  map (fun c => match c with
                | CStr s => String.eqb (lower s) team_lower
                | _ => false
                end) names.

Definition get_team_ff (team : pyval) (ff_df : DataFrame) (home : bool)
  : result DataFrame :=
  let ff_list := br_references.four_factors in
  names <- df_getattr ff_df "team_name" ;;
  names <- series_str names ;;
  team_lower <- py_lower team ;;
  team_ff <- df_getitem_list (df_mask ff_df (team_mask names team_lower))
                             ff_list ;;
  if home then Ok (df_rename lm.append_h team_ff)
  else Ok (df_rename lm.append_a team_ff).

Definition create_prediction_df (home_tm away_tm : pyval) (ff_df : DataFrame)
  : result DataFrame :=
  home_ff <- get_team_ff home_tm ff_df true ;;
  away_ff <- get_team_ff away_tm ff_df false ;;
  let home_ff := df_setitem home_ff "key" (CInt 1) in
  let home_ff := df_setitem home_ff "const" (CFloat 1) in
  let away_ff := df_setitem away_ff "key" (CInt 1) in
  merged <- pd_merge home_ff away_ff "key" ;;
  merged <- df_drop merged "key" ;;
  Ok (df_sort_index_columns merged).

(* ===================================================================== *)
(** ** [datetime]: dates as [predict_games_on_day] builds and compares them *)
(* ===================================================================== *)

Module datetime.

Local Open Scope Z_scope.

Record t : Type := mk {
  year : Z; month : Z; day : Z;
  hour : Z; minute : Z; second : Z; microsecond : Z
}.

Definition MINYEAR : Z := 1.
Definition MAXYEAR : Z := 9999.

Definition is_leap (y : Z) : bool :=
  (y mod 4 =? 0) && (negb (y mod 100 =? 0) || (y mod 400 =? 0)).

Definition days_in_month (y m : Z) : Z :=
  if m =? 2 then (if is_leap y then 29 else 28)
  else if (m =? 4) || (m =? 6) || (m =? 9) || (m =? 11) then 30
  else 31.

(** The calendar date of [d] exists. *)
Definition valid_date (y m d : Z) : bool :=
  (MINYEAR <=? y) && (y <=? MAXYEAR) && (1 <=? m) && (m <=? 12)
  && (1 <=? d) && (d <=? days_in_month y m).

(** The time of day of [d] is in range. *)
Definition valid_time (d : t) : bool :=
  (0 <=? hour d) && (hour d <? 24) && (0 <=? minute d) && (minute d <? 60)
  && (0 <=? second d) && (second d <? 60)
  && (0 <=? microsecond d) && (microsecond d <? 1000000).

Definition valid (d : t) : bool :=
  valid_date (year d) (month d) (day d) && valid_time d.

(** The argument fits a C [int], as the constructor converts it. *)
Definition c_int (z : Z) : bool :=
  (-2147483648 <=? z) && (z <=? 2147483647).

(** [datetime.datetime(year=y, month=m, day=d)]: midnight of that date. The
    arguments are converted to C integers first, which raises
    [OverflowError] for one out of range; then the date is checked. *)
Definition make (y m d : Z) : result t :=
  if c_int y && c_int m && c_int d then
    if valid_date y m d then Ok (mk y m d 0 0 0 0) else Raise ValueError
  else Raise OverflowError.

(** Comparison is field by field, from the year down to the microsecond. *)
Definition fields (d : t) : list Z :=
  [year d; month d; day d; hour d; minute d; second d; microsecond d].

Fixpoint lex_compare (a b : list Z) : comparison :=
  match a, b with
  | x :: a', y :: b' =>
      match x ?= y with
      | Eq => lex_compare a' b'
      | c => c
      end
  | [], [] => Eq
  | [], _ :: _ => Lt
  | _ :: _, [] => Gt
  end.

Definition compare (a b : t) : comparison := lex_compare (fields a) (fields b).

(** [a < b]. *)
Definition ltb (a b : t) : bool :=
  match compare a b with Lt => true | _ => false end.

(** [a >= b]. *)
Definition geb (a b : t) : bool :=
  match compare a b with Lt => false | _ => true end.

(** [d + datetime.timedelta(days=1)]: the same time of day on the next
    calendar date; past the last day of [MAXYEAR] the date is out of range. *)
Definition add_one_day (d : t) : result t :=
  let rest y m dd := mk y m dd (hour d) (minute d) (second d) (microsecond d) in
  if day d <? days_in_month (year d) (month d)
  then Ok (rest (year d) (month d) (day d + 1))
  else if month d <? 12 then Ok (rest (year d) (month d + 1) 1)
  else if year d <? MAXYEAR then Ok (rest (year d + 1) 1 1)
  else Raise OverflowError.

End datetime.

(* ===================================================================== *)
(** ** The schedule and the prediction result *)
(* ===================================================================== *)

(** One row of [sched_df]. *)
Module Sched.
Record row : Type := mk {
  id : Z;
  start_time : datetime.t;
  home_team : string;
  away_team : string
}.
End Sched.

(** The dictionary returned by [predict_game]. *)
Module PredictionResult.
Record t : Type := mk {
  start_time : datetime.t;
  home_team : pyval;
  away_team : pyval;
  line : R;
  prediction : R;
  probability : R;
  function : string
}.
End PredictionResult.

(** The arguments of one call of [predict_game]. *)
Record game_call : Type := {
  arg_start_time : datetime.t;
  arg_home_tm : pyval;
  arg_away_tm : pyval;
  arg_line : R
}.

(** What [predict_games_on_day] can hand back to its caller: [None], or a
    sequence of prediction results. *)
Inductive day_value : Type :=
| DayNone
| DayResults (results : list PredictionResult.t).

(** [str(n)] for an integer. *)
Definition str_of_int (n : Z) : string :=
  DecimalString.NilZero.string_of_int (Z.to_int n).

(* ===================================================================== *)
(** ** [predict.py]: [predict_game] and [predict_games_on_day] *)
(* ===================================================================== *)

(** What [predict.py] takes from its collaborators. *)
Record Collaborators : Type := {
  (** [four_factor_regression.main(year=...)]: the fitted model. *)
  lm_main : Z -> result lm.Regression;
  (** [four_factor_regression.four_factors_list()]. *)
  four_factors_list : list string;
  (** [pd.read_sql_table(name, db_conn)]. *)
  read_sql_table : string -> result DataFrame
}.

Section Engine.

Variable env : Collaborators.

Definition predict_game (start_time : datetime.t) (home_tm away_tm : pyval)
    (line : R) (year : Z) : result PredictionResult.t :=
  reg <- lm_main env year ;;
  home_tm <- get_team_name home_tm ;;
  away_tm <- get_team_name away_tm ;;
  (* Get Misc stats for year *)
  let ff_list := four_factors_list env in
  let misc_stats := "misc_stats_" ++ str_of_int year in
  table <- read_sql_table env misc_stats ;;
  ff_df <- df_getitem_list table ff_list ;;
  pred_df <- create_prediction_df home_tm away_tm ff_df ;;
  prediction <- get_prediction reg pred_df ;;
  match line_probability prediction line (lm.residuals_std reg) with
  | LPPair probability function =>
      Ok (PredictionResult.mk start_time home_tm away_tm line
            prediction probability function)
  | LPScalar _ => Raise TypeError   (* a float does not unpack *)
  | LPNone => Raise TypeError       (* neither does None *)
  end.

(** [predict_game] on recorded arguments, with the default [year=2019]. *)
Definition run_call (c : game_call) : result PredictionResult.t :=
  predict_game (arg_start_time c) (arg_home_tm c) (arg_away_tm c)
               (arg_line c) 2019.

(** The [for index, row in games_on_date.iterrows()] loop: one call of
    [predict_game] per row, whose result is dropped; a raising call ends
    the loop. The calls made are recorded in order. *)
Fixpoint predict_rows (args : Sched.row -> game_call)
    (rows : list Sched.row) : list game_call * result unit :=
  match rows with
  | [] => ([], Ok tt)
  | row :: rest =>
      let c := args row in
      match run_call c with
      | Ok _ =>
          let '(calls, r) := predict_rows args rest in (c :: calls, r)
      | Raise e => ([c], Raise e)
      end
  end.

(** [(start_time >= date) & (start_time < next_day)] for one row. *)
Definition date_mask (date next_day : datetime.t) (row : Sched.row)
  : bool :=
  datetime.geb (Sched.start_time row) date
  && datetime.ltb (Sched.start_time row) next_day.

(** [sched_df.loc[date_mask]]. *)
Definition games_on_date (date next_day : datetime.t)
    (sched_df : list Sched.row) : list Sched.row :=
  filter (date_mask date next_day) sched_df.

Definition no_games_message (month day year : Z) : string :=
  "No games on " ++ str_of_int month ++ "/" ++ str_of_int day ++ "/"
  ++ str_of_int year.

(** The calls made, and the outcome: the function has no [return], so a
    run that ends normally hands back [None]. *)
Definition predict_games_on_day (day month year : Z)
    (sched_df : list Sched.row) (lines : bool)
  : list game_call * result day_value :=
  match datetime.make year month day with
  | Raise e => ([], Raise e)
  | Ok date =>
  match datetime.add_one_day date with
  | Raise e => ([], Raise e)
  | Ok next_day =>
      let games_on_date := games_on_date date next_day sched_df in
      if (List.length games_on_date <? 1)%nat
      then ([], Raise (PyException (no_games_message month day year)))
      else
        let '(calls, r) :=
          if lines then
            let game_lines := [4; -4]%R in
            predict_rows
              (fun row =>
                 {| arg_start_time := Sched.start_time row;
                    arg_home_tm := PyStr (Sched.home_team row);
                    arg_away_tm := PyStr (Sched.away_team row);
                    arg_line := nth 0 game_lines 0%R |})
              games_on_date
          else
            predict_rows
              (fun row =>
                 {| arg_start_time := Sched.start_time row;
                    arg_home_tm := PyStrList ["home_team"];
                    arg_away_tm := PyStr (Sched.away_team row);
                    arg_line := 0%R |})
              games_on_date in
        (calls, _ <- r ;; Ok DayNone)
  end
  end.

End Engine.

(* ===================================================================== *)
(** ** Python dicts with string keys *)
(* ===================================================================== *)

(** A dict as the list of its items in insertion order; the keys of a dict
    are pairwise distinct. *)
Module pydict.

Definition t (V : Type) : Type := list (string * V).

Definition keys {V : Type} (d : t V) : list string := map fst d.

(** [key in d] resolved to the value: the item under [key], if any. *)
Fixpoint get {V : Type} (d : t V) (key : string) : option V :=
  match d with
  | [] => None
  | (k, v) :: rest => if String.eqb k key then Some v else get rest key
  end.

(** [d[key]]. *)
Definition getitem {V : Type} (d : t V) (key : string) : result V :=
  match get d key with
  | Some v => Ok v
  | None => Raise KeyError
  end.

(** [d[key] = v]: the value of an existing key is replaced in place, a new
    key goes to the end. *)
Fixpoint set {V : Type} (d : t V) (key : string) (v : V) : t V :=
  match d with
  | [] => [(key, v)]
  | (k, w) :: rest =>
      if String.eqb k key then (k, v) :: rest else (k, w) :: set rest key v
  end.

(** [dict(items)]. *)
Definition of_items {V : Type} (items : list (string * V)) : t V :=
  fold_left (fun d kv => set d (fst kv) (snd kv)) items [].

End pydict.

(* ===================================================================== *)
(** ** [db_interface.py]: type conversion and column definitions *)
(* ===================================================================== *)

Module db_interface.

(** The sqlalchemy type classes [Integer], [Float] and [String]. *)
Inductive sql_type : Type := Integer | Float | String_.

(** The [for key in py_types] loop of [py_type_to_sql_type], with the dict
    [sql_types] built so far. *)
Fixpoint py_type_to_sql_type_loop (py_types : pydict.t string)
    (keys : list string) (sql_types : pydict.t sql_type)
  : result (pydict.t sql_type) :=
  match keys with
  | [] => Ok sql_types
  | key :: rest =>
      ty <- pydict.getitem py_types key ;;
      if String.eqb ty "integer" then
        py_type_to_sql_type_loop py_types rest
          (pydict.set sql_types key Integer)
      else if String.eqb ty "float" then
        py_type_to_sql_type_loop py_types rest
          (pydict.set sql_types key Float)
      else if String.eqb ty "string" then
        py_type_to_sql_type_loop py_types rest
          (pydict.set sql_types key String_)
      else
        Raise (PyException
                 ("Error: py_type " ++ ty
                  ++ " is not an integer, float, or string"))
  end.

Definition py_type_to_sql_type (py_types : pydict.t string)
  : result (pydict.t sql_type) :=
  py_type_to_sql_type_loop py_types (pydict.keys py_types) [].

(** The list comprehension of [get_py_type]: one call per key, in order. *)
Fixpoint map_result {A B : Type} (f : A -> result B) (l : list A)
  : result (list B) :=
  match l with
  | [] => Ok []
  | a :: rest =>
      b <- f a ;;
      bs <- map_result f rest ;;
      Ok (b :: bs)
  end.

Section TypeOf.

(** The values of a table dictionary, and [general.get_type] on them; the
    module [general] is not part of the sources at hand. *)
Variable V : Type.
Variable get_type : V -> result string.

Definition get_py_type (tbl_dict : pydict.t V) : result (pydict.t string) :=
  let tbl_keys := pydict.keys tbl_dict in
  py_types <- map_result
                (fun key => v <- pydict.getitem tbl_dict key ;; get_type v)
                (pydict.keys tbl_dict) ;;
  let py_types_dict := pydict.of_items (combine tbl_keys py_types) in
  Ok py_types_dict.

Definition get_sql_type (tbl_dict : pydict.t V)
  : result (pydict.t sql_type) :=
  py_types <- get_py_type tbl_dict ;;
  sql_types <- py_type_to_sql_type py_types ;;
  Ok sql_types.

End TypeOf.

(** A value of the dict built by [create_col_definitions]: the table name,
    or a [Column] of a type, primary key or not. *)
Inductive col_spec : Type :=
| TableName (name : string)
| Column (ty : sql_type) (primary_key : bool).

(** The [for key in id_type_dict] loop of [create_col_definitions]. *)
Fixpoint create_col_definitions_loop (id_type_dict : pydict.t sql_type)
    (keys : list string) (col_specs : pydict.t col_spec)
  : result (pydict.t col_spec) :=
  match keys with
  | [] => Ok col_specs
  | key :: rest =>
      ty <- pydict.getitem id_type_dict key ;;
      create_col_definitions_loop id_type_dict rest
        (pydict.set col_specs key (Column ty false))
  end.

Definition create_col_definitions (tbl_name : string)
    (id_type_dict : pydict.t sql_type) : result (pydict.t col_spec) :=
  let col_specs :=
    pydict.of_items [ ("__tablename__", TableName tbl_name);
                      ("id", Column Integer true) ] in
  create_col_definitions_loop id_type_dict (pydict.keys id_type_dict)
    col_specs.

End db_interface.

(* ===================================================================== *)
(** ** [predict.py]: the console report *)
(* ===================================================================== *)

(** A sentence printed by [prediction_result_console_output], recorded by
    its template and the values put into it. *)
Inductive printed : Type :=
(** "The {} are projected to beat the {} by {} points" *)
| ProjectedToBeat (home_tm away_tm : pyval) (prediction : R)
(** "The {} are projected to lose to the {} by {} points" *)
| ProjectedToLose (home_tm away_tm : pyval) (prediction : R)
(** "If the model were true, the betting line's ({}) CDF, in relation to
    the prediction, would be realized {}% of the time" *)
| LineCDF (line probability : R)
(** "If the model were true, the betting line's ({}) SF, in relation to
    the prediction, would be realized {}% of the time" *)
| LineSF (line probability : R).

(** The sentences printed, in order. *)
Definition prediction_result_console_output (home_tm away_tm : pyval)
    (line prediction probability : R) : list printed :=
  ((if Rlt_dec 0 prediction then
      ProjectedToBeat home_tm away_tm prediction
      :: (if Rlt_dec (-1 * line) prediction
          then [LineCDF line probability]
          else [LineSF line probability])
    else [])
   ++
   (if Rlt_dec prediction 0 then
      ProjectedToLose home_tm away_tm prediction
      :: (if Rlt_dec (-1 * line) prediction
          then [LineCDF line probability]
          else [LineSF line probability])
    else []))%list.

(* ===================================================================== *)
(** * Part II: vocabulary of the statements, and sample data *)
(* ===================================================================== *)

(** The canonical names, in the order the enumeration yields them. *)
Definition canonical_names : list string :=
  map br_references.value br_references.members.

(** [c] is the first of [names] equal to [input] up to case. *)
Definition first_match (input : string) (names : list string) (c : string)
  : Prop :=
  exists before after,
    names = (before ++ c :: after)%list
    /\ lower input = lower c
    /\ Forall (fun d => lower input <> lower d) before.

(** The suffix a role appends. *)
Definition role_suffix (home : bool) : string -> string :=
  if home then lm.append_h else lm.append_a.

(** Number of entries of the [team_name] column equal to [team] up to
    case. *)
Definition matching_rows (names : Series) (team : string) : nat :=
  List.length (filter (fun b : bool => b) (team_mask names (lower team))).

(** Every column of the frame holds exactly one entry. *)
Definition single_row (df : DataFrame) : Prop :=
  Forall (fun col => List.length (snd col) = 1%nat) df.

(** Every entry of the frame is a number. *)
Definition all_numeric (df : DataFrame) : Prop :=
  Forall (fun col => forallb is_numeric (snd col) = true) df.

(** The labels of the feature vector: the home factors, the away factors
    and the constant. *)
Definition feature_labels : list string :=
  (map lm.append_h br_references.four_factors
   ++ map lm.append_a br_references.four_factors ++ ["const"])%list.

(** The call the loop makes for a row when lines are requested: the row's
    teams against the first sample line, 4. *)
Definition lines_call (row : Sched.row) : game_call :=
  {| arg_start_time := Sched.start_time row;
     arg_home_tm := PyStr (Sched.home_team row);
     arg_away_tm := PyStr (Sched.away_team row);
     arg_line := 4%R |}.

(** A stats table with one row per team, as [misc_stats_2019] holds them. *)
Definition sample_stats : DataFrame :=
  [ ("team_name", [CStr "Boston Celtics"; CStr "Los Angeles Lakers";
                   CStr "Philadelphia 76ers"]);
    ("efg_pct", [CFloat 0.53; CFloat 0.52; CFloat 0.51]);
    ("tov_pct", [CFloat 11.5; CFloat 12.5; CFloat 13.5]);
    ("orb_pct", [CFloat 21; CFloat 22; CFloat 23]);
    ("ft_rate", [CFloat 0.19; CFloat 0.2; CFloat 0.21]);
    ("opp_efg_pct", [CFloat 0.5; CFloat 0.51; CFloat 0.52]);
    ("opp_tov_pct", [CFloat 12; CFloat 13; CFloat 14]);
    ("drb_pct", [CFloat 77; CFloat 78; CFloat 79]);
    ("opp_ft_rate", [CFloat 0.18; CFloat 0.19; CFloat 0.2]) ].

(** A stats table in which two rows name the Lakers, in different case. *)
Definition ambiguous_stats : DataFrame :=
  [ ("team_name", [CStr "Boston Celtics"; CStr "LOS ANGELES LAKERS";
                   CStr "Los Angeles Lakers"]);
    ("efg_pct", [CFloat 0.53; CFloat 0.52; CFloat 0.51]);
    ("tov_pct", [CFloat 11.5; CFloat 12.5; CFloat 13.5]);
    ("orb_pct", [CFloat 21; CFloat 22; CFloat 23]);
    ("ft_rate", [CFloat 0.19; CFloat 0.2; CFloat 0.21]);
    ("opp_efg_pct", [CFloat 0.5; CFloat 0.51; CFloat 0.52]);
    ("opp_tov_pct", [CFloat 12; CFloat 13; CFloat 14]);
    ("drb_pct", [CFloat 77; CFloat 78; CFloat 79]);
    ("opp_ft_rate", [CFloat 0.18; CFloat 0.19; CFloat 0.2]) ].

(** The schedule of the opening days of the 2018-19 season. *)
Definition sample_sched : list Sched.row :=
  [ Sched.mk 1 (datetime.mk 2018 10 17 0 0 0 0)
      "Boston Celtics" "Philadelphia 76ers";
    Sched.mk 2 (datetime.mk 2018 10 17 22 30 0 0)
      "Los Angeles Lakers" "Boston Celtics";
    Sched.mk 3 (datetime.mk 2018 10 18 0 0 0 0)
      "Philadelphia 76ers" "Los Angeles Lakers" ].

(** A fitted model whose prediction is 4 points for every matchup, with
    residual standard deviation 13. *)
Definition sample_model : lm.Regression :=
  {| lm.results_predict := fun _ => Ok 4%R; lm.residuals_std := 13%R |}.

Definition sample_env : Collaborators :=
  {| lm_main := fun _ => Ok sample_model;
     four_factors_list := "team_name" :: br_references.four_factors;
     read_sql_table := fun _ => Ok sample_stats |}.

Definition opening_night : datetime.t := datetime.mk 2018 10 17 0 0 0 0.
Definition next_morning : datetime.t := datetime.mk 2018 10 18 0 0 0 0.

(** The call the loop makes for a row when no lines are requested. *)
Definition no_lines_call (row : Sched.row) : game_call :=
  {| arg_start_time := Sched.start_time row;
     arg_home_tm := PyStrList ["home_team"];
     arg_away_tm := PyStr (Sched.away_team row);
     arg_line := 0%R |}.

(** A schedule whose second game of the day names a team the resolver does
    not know. *)
Definition broken_sched : list Sched.row :=
  [ Sched.mk 1 (datetime.mk 2018 10 17 19 0 0 0)
      "Boston Celtics" "Philadelphia 76ers";
    Sched.mk 2 (datetime.mk 2018 10 17 20 0 0 0)
      "Seattle" "Boston Celtics";
    Sched.mk 3 (datetime.mk 2018 10 17 22 30 0 0)
      "Los Angeles Lakers" "Boston Celtics" ].

(** A table with the scraped headers: two teams, the same figures in every
    numeric column. *)
Definition sample_misc_stats : DataFrame :=
  map (fun header =>
         (header,
          if String.eqb header "team_name"
          then [CStr "Boston Celtics"; CStr "Los Angeles Lakers"]
          else if String.eqb header "arena_name"
          then [CStr "TD Garden"; CStr "Staples Center"]
          else [CFloat 1; CFloat 2]))
      br_references.data_stat_headers.

(** The SQL type a Python type name stands for, if any. *)
Definition sql_type_of (ty : string) : option db_interface.sql_type :=
  if String.eqb ty "integer" then Some db_interface.Integer
  else if String.eqb ty "float" then Some db_interface.Float
  else if String.eqb ty "string" then Some db_interface.String_
  else None.

(** The message of the exception of [py_type_to_sql_type]. *)
Definition py_type_error (ty : string) : exn :=
  PyException ("Error: py_type " ++ ty ++ " is not an integer, float, or string").

(* ===================================================================== *)
(** * Part III: the properties *)
(* ===================================================================== *)

(* ===================================================================== *)
(** ** Facts about the normal distribution *)
(* ===================================================================== *)

Section NormFacts.

Local Open Scope R_scope.
Import Norm.

Lemma gauss_pos (x : R) : 0 < gauss x.
Proof. apply exp_pos. Qed.

Lemma gauss_lower (c x : R) : Rabs x <= c -> exp (- (c * c) / 2) <= gauss x.
Proof.
  intros Hx. unfold gauss.
  assert (Hsq : x * x <= c * c).
  { assert (H0 := Rabs_pos x).
    replace (x * x) with (Rabs x * Rabs x).
    - apply Rmult_le_compat; lra.
    - unfold Rabs. destruct (Rcase_abs x); lra. }
  destruct (Rle_lt_or_eq_dec _ _ Hsq) as [Hlt | Heq].
  - left. apply exp_increasing. lra.
  - right. f_equal. lra.
Qed.

Lemma area_refl (a : R) : area a a = 0.
Proof. unfold area. apply RiemannInt_P9. Qed.

Lemma area_chasles (a b c : R) : area a b + area b c = area a c.
Proof. unfold area. apply RiemannInt_P26. Qed.

Lemma area_nonneg (a b : R) : a <= b -> 0 <= area a b.
Proof.
  intros Hab. unfold area.
  destruct (RiemannInt_const_bound (l := 0) (u := 1) (gauss_integrable a b) Hab)
    as [Hlo _].
  - intros x _. split; [left; apply gauss_pos|].
    unfold gauss. rewrite <- exp_0.
    assert (H : - (x * x) / 2 <= 0) by nra.
    destruct H as [H | H]; [left; apply exp_increasing; exact H | right; now rewrite H].
  - lra.
Qed.

Lemma area_lower (a b c : R) :
  a <= b -> Rabs a <= c -> Rabs b <= c ->
  exp (- (c * c) / 2) * (b - a) <= area a b.
Proof.
  intros Hab Ha Hb. unfold area.
  destruct (RiemannInt_const_bound (l := exp (- (c * c) / 2)) (u := 1)
              (gauss_integrable a b) Hab) as [Hlo _]; [|exact Hlo].
  intros x [Hx1 Hx2]. split.
  - apply gauss_lower.
    unfold Rabs in *. destruct (Rcase_abs x), (Rcase_abs a), (Rcase_abs b); lra.
  - unfold gauss. rewrite <- exp_0.
    assert (H : - (x * x) / 2 <= 0) by nra.
    destruct H as [H | H]; [left; apply exp_increasing; exact H | right; now rewrite H].
Qed.

Lemma area_pos (a b : R) : a < b -> 0 < area a b.
Proof.
  intros Hab.
  pose (c := Rabs a + Rabs b).
  assert (Ha := Rabs_pos a). assert (Hb := Rabs_pos b).
  assert (H := area_lower a b c (Rlt_le _ _ Hab)).
  assert (He := exp_pos (- (c * c) / 2)).
  unfold c in *.
  eapply Rlt_le_trans; [|apply H; lra].
  apply Rmult_lt_0_compat; lra.
Qed.

Lemma sqrt_2PI_pos : 0 < sqrt (2 * PI).
Proof. apply sqrt_lt_R0. assert (H := PI_RGT_0). lra. Qed.

Lemma Phi_0 : Phi 0 = 1 / 2.
Proof. unfold Phi. rewrite area_refl. unfold Rdiv. lra. Qed.

Lemma Phi_diff (a b : R) : Phi b - Phi a = area a b / sqrt (2 * PI).
Proof.
  unfold Phi. rewrite <- (area_chasles 0 a b). unfold Rdiv. lra.
Qed.

Lemma Phi_monotone (a b : R) : a <= b -> Phi a <= Phi b.
Proof.
  intros Hab.
  assert (H := Phi_diff a b). assert (Hs := sqrt_2PI_pos).
  assert (Ha := area_nonneg a b Hab).
  assert (0 <= area a b / sqrt (2 * PI)).
  { apply Rmult_le_pos; [exact Ha|]. left. now apply Rinv_0_lt_compat. }
  lra.
Qed.

Lemma Phi_strict (a b : R) : a < b -> Phi a < Phi b.
Proof.
  intros Hab.
  assert (H := Phi_diff a b). assert (Hs := sqrt_2PI_pos).
  assert (Ha := area_pos a b Hab).
  assert (0 < area a b / sqrt (2 * PI)).
  { apply Rmult_lt_0_compat; [exact Ha|]. now apply Rinv_0_lt_compat. }
  lra.
Qed.

End NormFacts.

(* ===================================================================== *)
(** ** [line_probability]: branches, bounds and monotonicity *)
(* ===================================================================== *)

Section LineProbability.

Local Open Scope R_scope.

Lemma line_probability_cdf (p l std : R) :
  - l < p -> line_probability p l std = LPPair (Norm.cdf p std (- l)) "cdf".
Proof.
  intros H. unfold line_probability.
  replace (-1 * l) with (- l) by lra.
  destruct (Rlt_dec (- l) p) as [_ | Hn]; [reflexivity | contradiction].
Qed.

Lemma line_probability_sf (p l std : R) :
  p < - l -> line_probability p l std = LPPair (Norm.sf p std (- l)) "sf".
Proof.
  intros H. unfold line_probability.
  replace (-1 * l) with (- l) by lra.
  destruct (Rlt_dec (- l) p) as [Hgt | _]; [lra|].
  destruct (Rlt_dec p (- l)) as [_ | Hn]; [reflexivity | contradiction].
Qed.

Lemma line_probability_eq (p l std : R) :
  p = - l -> line_probability p l std = LPScalar (1 / 2).
Proof.
  intros H. unfold line_probability.
  replace (-1 * l) with (- l) by lra.
  destruct (Rlt_dec (- l) p) as [Hgt | _]; [lra|].
  destruct (Rlt_dec p (- l)) as [Hlt | _]; [lra|].
  destruct (Req_dec_T p (- l)) as [_ | Hn]; [reflexivity | contradiction].
Qed.

(** On real numbers one of the three branches is always taken: the implicit
    [None] is never handed back. *)
Lemma line_probability_not_none (p l std : R) :
  line_probability p l std <> LPNone.
Proof.
  destruct (Rtotal_order p (- l)) as [H | [H | H]].
  - rewrite (line_probability_sf p l std H). discriminate.
  - rewrite (line_probability_eq p l std H). discriminate.
  - rewrite (line_probability_cdf p l std H). discriminate.
Qed.

Lemma cdf_below_mean (p std t : R) :
  0 < std -> t < p -> Norm.cdf p std t < 1 / 2.
Proof.
  intros Hstd Ht. unfold Norm.cdf. rewrite <- Phi_0.
  apply Phi_strict.
  assert (H : 0 < (p - t) / std).
  { apply Rmult_lt_0_compat; [lra | now apply Rinv_0_lt_compat]. }
  unfold Rdiv in *. nra.
Qed.

Lemma sf_above_mean (p std t : R) :
  0 < std -> p < t -> Norm.sf p std t < 1 / 2.
Proof.
  intros Hstd Ht. unfold Norm.sf, Norm.cdf.
  assert (H : Norm.Phi 0 < Norm.Phi ((t - p) / std)).
  { apply Phi_strict. apply Rmult_lt_0_compat; [lra | now apply Rinv_0_lt_compat]. }
  rewrite Phi_0 in H. lra.
Qed.

Lemma cdf_antitone_in_mean (p1 p2 std t : R) :
  0 < std -> p1 <= p2 -> Norm.cdf p2 std t <= Norm.cdf p1 std t.
Proof.
  intros Hstd Hp. unfold Norm.cdf. apply Phi_monotone.
  assert (Hi := Rinv_0_lt_compat _ Hstd). unfold Rdiv. nra.
Qed.

Lemma cdf_strict_in_mean (p1 p2 std t : R) :
  0 < std -> p1 < p2 -> Norm.cdf p2 std t < Norm.cdf p1 std t.
Proof.
  intros Hstd Hp. unfold Norm.cdf. apply Phi_strict.
  assert (Hi := Rinv_0_lt_compat _ Hstd). unfold Rdiv. nra.
Qed.

End LineProbability.

(** C1. For every prediction [p], line [l] and residual standard deviation
    [std > 0], [line_probability p l std] compares [p] with the threshold
    [t = -l]: when [p > t] it returns the CDF of Normal(mean = [p], [std])
    at [t] with the tag ["cdf"]; when [p < t] it returns the survival
    function, one minus that CDF, at [t] with the tag ["sf"]; when [p = t]
    it returns the probability 0.5. *)
Theorem line_probability_spec (p l std : R) :
  (0 < std)%R ->
  let t := (- l)%R in
  ((p > t)%R ->
     line_probability p l std = LPPair (Norm.cdf p std t) "cdf"
     /\ Norm.cdf p std t = Norm.Phi ((t - p) / std))
  /\ ((p < t)%R ->
     line_probability p l std = LPPair (1 - Norm.cdf p std t)%R "sf")
  /\ (p = t ->
     line_probability p l std = LPScalar (1 / 2)
     /\ lp_probability (line_probability p l std) = Some (1 / 2)%R).
Proof.
  intros _ t. unfold t. repeat split.
  - now apply line_probability_cdf.
  - intros H. now rewrite line_probability_sf.
  - now apply line_probability_eq.
  - now rewrite line_probability_eq.
Qed.

Lemma line_probability_spec_witness :
  (0 < 1)%R
  /\ line_probability (16 / 5) (-4) 1
     = LPPair (1 - Norm.cdf (16 / 5) 1 (- -4))%R "sf".
Proof.
  split; [lra|].
  apply (line_probability_spec (16 / 5) (-4) 1); lra.
Defined.

(** C3, as the code has it. With [std > 0] and the threshold [t = -l]
    fixed, the probability returned by [line_probability] is non-increasing
    in the prediction over the region of the ["cdf"] branch ([p > t]) and
    non-decreasing in the prediction over the region of the ["sf"] branch
    ([p < t]). *)
Theorem line_probability_monotone (std l p1 p2 : R) :
  (0 < std)%R -> (p1 <= p2)%R ->
  let t := (- l)%R in
  ((t < p1)%R ->
     exists q1 q2,
       line_probability p1 l std = LPPair q1 "cdf"
       /\ line_probability p2 l std = LPPair q2 "cdf"
       /\ (q2 <= q1)%R)
  /\ ((p2 < t)%R ->
     exists q1 q2,
       line_probability p1 l std = LPPair q1 "sf"
       /\ line_probability p2 l std = LPPair q2 "sf"
       /\ (q1 <= q2)%R).
Proof.
  intros Hstd Hp t. unfold t. split; intros Ht.
  - exists (Norm.cdf p1 std (- l)), (Norm.cdf p2 std (- l)).
    repeat split.
    + now apply line_probability_cdf.
    + apply line_probability_cdf. lra.
    + now apply cdf_antitone_in_mean.
  - exists (Norm.sf p1 std (- l)), (Norm.sf p2 std (- l)).
    repeat split.
    + apply line_probability_sf. lra.
    + now apply line_probability_sf.
    + unfold Norm.sf.
      assert (H := cdf_antitone_in_mean p1 p2 std (- l) Hstd Hp). lra.
Qed.

Lemma line_probability_monotone_witness :
  (0 < 1)%R /\ (1 <= 2)%R
  /\ ((- 0 < 1)%R ->
      exists q1 q2,
        line_probability 1 0 1 = LPPair q1 "cdf"
        /\ line_probability 2 0 1 = LPPair q2 "cdf"
        /\ (q2 <= q1)%R).
Proof.
  split; [lra|]. split; [lra|].
  apply (line_probability_monotone 1 0 1 2); lra.
Defined.

(** C3, as stated, fails: on the ["cdf"] branch a larger prediction gives a
    strictly smaller probability, and on the ["sf"] branch a larger
    prediction gives a strictly larger one. *)
Lemma line_probability_monotone_counterexample :
  (exists q1 q2,
      (- 0 < 1)%R /\ (1 <= 2)%R
      /\ line_probability 1 0 1 = LPPair q1 "cdf"
      /\ line_probability 2 0 1 = LPPair q2 "cdf"
      /\ ~ (q1 <= q2)%R)
  /\ (exists q1 q2,
      (-2 <= -1)%R /\ (-1 < - 0)%R
      /\ line_probability (-2) 0 1 = LPPair q1 "sf"
      /\ line_probability (-1) 0 1 = LPPair q2 "sf"
      /\ ~ (q1 >= q2)%R).
Proof.
  split.
  - exists (Norm.cdf 1 1 (- 0)), (Norm.cdf 2 1 (- 0)).
    repeat split; try lra.
    + apply line_probability_cdf. lra.
    + apply line_probability_cdf. lra.
    + assert (H := cdf_strict_in_mean 1 2 1 (- 0)%R). lra.
  - exists (Norm.sf (-2) 1 (- 0)), (Norm.sf (-1) 1 (- 0)).
    repeat split; try lra.
    + apply line_probability_sf. lra.
    + apply line_probability_sf. lra.
    + unfold Norm.sf.
      assert (H := cdf_strict_in_mean (-2) (-1) 1 (- 0)%R). lra.
Qed.

(** C4, as the code has it. For every prediction [p], line [l] and
    [std > 0], the probability returned by [line_probability] is never
    greater than 0.5: the value reported is the tail of Normal([p], [std])
    beyond the threshold, on the side away from the point prediction. *)
Theorem line_probability_at_most_half (p l std : R) :
  (0 < std)%R ->
  exists q,
    lp_probability (line_probability p l std) = Some q
    /\ (q <= 1 / 2)%R.
Proof.
  intros Hstd.
  destruct (Rtotal_order p (- l)) as [H | [H | H]].
  - exists (Norm.sf p std (- l)). rewrite (line_probability_sf p l std H).
    assert (Hq := sf_above_mean p std (- l) Hstd H).
    split; [reflexivity | lra].
  - exists (1 / 2)%R. rewrite (line_probability_eq p l std H).
    split; [reflexivity | lra].
  - exists (Norm.cdf p std (- l)). rewrite (line_probability_cdf p l std H).
    assert (Hq := cdf_below_mean p std (- l) Hstd H).
    split; [reflexivity | lra].
Qed.

Lemma line_probability_at_most_half_witness :
  (0 < 1)%R
  /\ exists q,
       lp_probability (line_probability 3 4 1) = Some q
       /\ (q <= 1 / 2)%R.
Proof.
  split; [lra|].
  apply (line_probability_at_most_half 3 4 1). lra.
Defined.

(** C4, as stated, fails: with prediction 1, line 0 and [std = 1] the
    probability returned is below 0.5. *)
Lemma line_probability_at_least_half_counterexample :
  exists q,
    (0 < 1)%R
    /\ lp_probability (line_probability 1 0 1) = Some q
    /\ ~ (1 / 2 <= q)%R.
Proof.
  exists (Norm.cdf 1 1 (- 0)). repeat split; [lra | |].
  - rewrite line_probability_cdf by lra. reflexivity.
  - assert (H := cdf_below_mean 1 1 (- 0)%R). lra.
Qed.

(* ===================================================================== *)
(** ** The team name resolver *)
(* ===================================================================== *)

Lemma get_team_name_loop_found (input : string) (teams : list br_references.Team)
    (c : string) :
  get_team_name_loop (PyStr input) teams = Ok (PyStr c)
  <-> first_match input (map br_references.value teams) c.
Proof.
  induction teams as [| t rest IH];
    cbn [get_team_name_loop py_lower bind map].
  - split; [discriminate|].
    intros (before & after & Heq & _). destruct before; discriminate.
  - destruct (String.eqb_spec (lower input) (lower (br_references.value t)))
      as [Heq | Hne].
    + split.
      * intros H. injection H as <-. exists [], (map br_references.value rest).
        repeat split; [exact Heq | constructor].
      * intros (before & after & Hl & Hm & Hb).
        destruct before as [| b before]; simpl in Hl.
        -- injection Hl as Hc _. now subst c.
        -- injection Hl as Hc _. subst b. inversion Hb; subst. contradiction.
    + rewrite IH. split.
      * intros (before & after & Hl & Hm & Hb).
        exists (br_references.value t :: before), after.
        repeat split; [simpl; now rewrite Hl | exact Hm | now constructor].
      * intros (before & after & Hl & Hm & Hb).
        destruct before as [| b before]; simpl in Hl.
        -- injection Hl as Hc _. subst c. contradiction.
        -- injection Hl as Hc Hl. subst b. inversion Hb; subst.
           exists before, after. repeat split; assumption.
Qed.

Lemma get_team_name_loop_none (input : string) (teams : list br_references.Team) :
  get_team_name_loop (PyStr input) teams = Ok PyNone
  <-> Forall (fun d => lower input <> lower d) (map br_references.value teams).
Proof.
  induction teams as [| t rest IH];
    cbn [get_team_name_loop py_lower bind map].
  - split; [constructor | reflexivity].
  - destruct (String.eqb_spec (lower input) (lower (br_references.value t)))
      as [Heq | Hne].
    + split; [discriminate|]. intros H. inversion H; subst. contradiction.
    + rewrite IH. split.
      * intros H. now constructor.
      * intros H. now inversion H.
Qed.

Example get_team_name_lakers :
  get_team_name (PyStr "Los Angeles Lakers") = Ok (PyStr "LOS ANGELES LAKERS").
Proof. reflexivity. Qed.

Example get_team_name_partial :
  get_team_name (PyStr "Lakers") = Ok PyNone.
Proof. reflexivity. Qed.

Example get_team_name_of_list :
  get_team_name (PyStrList ["home_team"]) = Raise AttributeError.
Proof. reflexivity. Qed.

(** C7, as the code has it. For every input string, [get_team_name]
    returns the first canonical team name equal to the input up to case,
    comparing whole strings against the fixed enumeration: nothing is
    matched partially or approximately. When no canonical name matches it
    raises nothing and returns [None]. *)
Theorem get_team_name_spec (input : string) :
  (forall c,
      get_team_name (PyStr input) = Ok (PyStr c)
      <-> first_match input canonical_names c)
  /\ (get_team_name (PyStr input) = Ok PyNone
      <-> Forall (fun d => lower input <> lower d) canonical_names)
  /\ (forall c,
      get_team_name (PyStr input) = Ok (PyStr c) ->
      In c canonical_names /\ lower input = lower c)
  /\ (forall e, get_team_name (PyStr input) <> Raise e).
Proof.
  assert (Hnr : forall e, get_team_name (PyStr input) <> Raise e).
  { intros e. unfold get_team_name.
    induction br_references.members as [| t rest IH];
      cbn [get_team_name_loop py_lower bind]; [discriminate|].
    destruct (String.eqb _ _); [discriminate | exact IH]. }
  unfold get_team_name, canonical_names.
  split; [|split; [|split; [|exact Hnr]]]; repeat split.
  - apply get_team_name_loop_found.
  - apply get_team_name_loop_found.
  - apply get_team_name_loop_none.
  - apply get_team_name_loop_none.
  - apply get_team_name_loop_found in H.
    destruct H as (before & after & Hl & _). rewrite Hl.
    apply in_or_app. right. now left.
  - apply get_team_name_loop_found in H.
    now destruct H as (before & after & _ & Hm & _).
Qed.

(** C7, as stated, fails: for an input that matches no canonical name in
    full the resolver does not fail, it ends normally and returns [None]. *)
Lemma get_team_name_not_found_counterexample :
  Forall (fun d => lower "Lakers" <> lower d) canonical_names
  /\ get_team_name (PyStr "Lakers") = Ok PyNone
  /\ (forall e, get_team_name (PyStr "Lakers") <> Raise e).
Proof.
  split; [|split].
  - apply get_team_name_loop_none. reflexivity.
  - reflexivity.
  - intros e. discriminate.
Qed.

(* ===================================================================== *)
(** ** The four-factors extractor *)
(* ===================================================================== *)

Lemma mask_select_length (mask : list bool) (s : Series) :
  List.length s = List.length mask ->
  List.length (mask_select mask s)
  = List.length (filter (fun b : bool => b) mask).
Proof.
  revert s. induction mask as [| b mask IH]; intros s Hlen.
  - reflexivity.
  - destruct s as [| c s]; [discriminate|].
    simpl in Hlen. injection Hlen as Hlen.
    simpl. destruct b; simpl; now rewrite IH.
Qed.

Lemma df_get_mask (df : DataFrame) (mask : list bool) (name : string) :
  df_get (df_mask df mask) name = option_map (mask_select mask) (df_get df name).
Proof.
  induction df as [| [n s] rest IH]; simpl; [reflexivity|].
  destruct (String.eqb n name); [reflexivity | exact IH].
Qed.

Lemma df_get_in (df : DataFrame) (name : string) (s : Series) :
  df_get df name = Some s -> In (name, s) df.
Proof.
  induction df as [| [n s'] rest IH]; simpl; [discriminate|].
  destruct (String.eqb_spec n name) as [-> | Hne].
  - intros H. injection H as ->. now left.
  - intros H. right. now apply IH.
Qed.

Lemma df_getitem_list_columns (df : DataFrame) (names : list string)
    (out : DataFrame) :
  df_getitem_list df names = Ok out -> df_columns out = names.
Proof.
  revert out. induction names as [| n rest IH]; simpl; intros out H.
  - injection H as <-. reflexivity.
  - unfold df_getitem in H. destruct (df_get df n); [|discriminate].
    simpl in H. destruct (df_getitem_list df rest) as [cols |]; [|discriminate].
    simpl in H. injection H as <-. simpl. f_equal. now apply IH.
Qed.

Lemma df_getitem_list_mask (df : DataFrame) (mask : list bool)
    (names : list string) :
  df_wf df -> List.length mask = df_len df ->
  Forall (fun n => df_has df n = true) names ->
  exists out,
    df_getitem_list (df_mask df mask) names = Ok out
    /\ df_columns out = names
    /\ Forall (fun col => List.length (snd col)
                          = List.length (filter (fun b : bool => b) mask)) out.
Proof.
  intros Hwf Hmask Hnames.
  induction Hnames as [| n rest Hn _ IH]; simpl.
  - exists []. repeat split; constructor.
  - destruct IH as (cols & -> & Hc & Hl).
    unfold df_getitem. rewrite df_get_mask.
    unfold df_has in Hn. destruct (df_get df n) as [s |] eqn:Hs; [|discriminate].
    simpl. eexists. split; [reflexivity|]. split.
    + simpl. now rewrite Hc.
    + constructor; [|exact Hl]. simpl.
      apply mask_select_length. rewrite Hmask.
      unfold df_wf in Hwf. rewrite Forall_forall in Hwf.
      exact (Hwf _ (df_get_in _ _ _ Hs)).
Qed.

Lemma series_str_ok (s s' : Series) : series_str s = Ok s' -> s' = s.
Proof.
  unfold series_str. destruct s as [| c s]; [now intros [= <-]|].
  destruct (existsb is_str (c :: s)); [now intros [= <-] | discriminate].
Qed.

Lemma series_str_raises (s : Series) (e : exn) :
  series_str s = Raise e -> e = AttributeError.
Proof.
  unfold series_str. destruct s as [| c s]; [discriminate|].
  destruct (existsb is_str (c :: s)); [discriminate | now intros [= <-]].
Qed.

Lemma series_str_with_string (s : Series) :
  existsb is_str s = true -> series_str s = Ok s.
Proof.
  unfold series_str. destruct s as [| c s]; [reflexivity|].
  now intros ->.
Qed.

(** The eight series an extraction is made of. *)
Lemma get_team_ff_inv (team : pyval) (ff_df : DataFrame) (home : bool)
    (team_ff : DataFrame) :
  get_team_ff team ff_df home = Ok team_ff ->
  exists t names s1 s2 s3 s4 s5 s6 s7 s8,
    team = PyStr t
    /\ (df_get ff_df "team_name" = Some names
        /\ series_str names = Ok names)
    /\ df_get ff_df "efg_pct" = Some s1 /\ df_get ff_df "tov_pct" = Some s2
    /\ df_get ff_df "orb_pct" = Some s3 /\ df_get ff_df "ft_rate" = Some s4
    /\ df_get ff_df "opp_efg_pct" = Some s5
    /\ df_get ff_df "opp_tov_pct" = Some s6
    /\ df_get ff_df "drb_pct" = Some s7 /\ df_get ff_df "opp_ft_rate" = Some s8
    /\ team_ff
       = df_rename (role_suffix home)
           (map (fun col => (fst col,
                             mask_select (team_mask names (lower t)) (snd col)))
                [ ("efg_pct", s1); ("tov_pct", s2); ("orb_pct", s3);
                  ("ft_rate", s4); ("opp_efg_pct", s5); ("opp_tov_pct", s6);
                  ("drb_pct", s7); ("opp_ft_rate", s8) ]).
Proof.
  unfold get_team_ff, df_getattr. intros H.
  destruct (df_get ff_df "team_name") as [names |]; [|discriminate].
  cbn [bind] in H.
  destruct (series_str names) as [names' |] eqn:Hstr; [|discriminate].
  assert (Hstr' := series_str_ok _ _ Hstr). subst names'.
  cbn [bind] in H. destruct team as [t | l |]; try discriminate.
  cbn [bind py_lower] in H.
  cbv [br_references.four_factors] in H. cbn [df_getitem_list] in H.
  unfold df_getitem in H. rewrite !df_get_mask in H.
  destruct (df_get ff_df "efg_pct") as [s1 |]; [|discriminate].
  destruct (df_get ff_df "tov_pct") as [s2 |]; [|discriminate].
  destruct (df_get ff_df "orb_pct") as [s3 |]; [|discriminate].
  destruct (df_get ff_df "ft_rate") as [s4 |]; [|discriminate].
  destruct (df_get ff_df "opp_efg_pct") as [s5 |]; [|discriminate].
  destruct (df_get ff_df "opp_tov_pct") as [s6 |]; [|discriminate].
  destruct (df_get ff_df "drb_pct") as [s7 |]; [|discriminate].
  destruct (df_get ff_df "opp_ft_rate") as [s8 |]; [|discriminate].
  cbn [option_map bind] in H.
  exists t, names, s1, s2, s3, s4, s5, s6, s7, s8.
  repeat split; [exact Hstr|].
  destruct home; injection H as <-; reflexivity.
Qed.

Ltac split_in H :=
  repeat (destruct H as [H | H]; [subst |]); [.. | destruct H].

(** C6, as the code has it. For every team name and every well-formed
    stats table that has the eight four-factor columns and a [team_name]
    column with a string among its entries, the extraction raises nothing,
    whatever the number of matching rows: it returns the eight relabelled
    columns restricted to exactly the rows that match the team up to case,
    in table order, so no row when none matches and every matching row
    when several do. *)
Theorem get_team_ff_keeps_matching_rows (team : string) (ff_df : DataFrame)
    (home : bool) (names : Series) :
  df_wf ff_df ->
  df_get ff_df "team_name" = Some names ->
  existsb is_str names = true ->
  Forall (fun n => df_has ff_df n = true) br_references.four_factors ->
  exists team_ff,
    get_team_ff (PyStr team) ff_df home = Ok team_ff
    /\ df_columns team_ff
       = map (role_suffix home) br_references.four_factors
    /\ Forall (fun col => List.length (snd col) = matching_rows names team)
              team_ff
    /\ (forall f, In f br_references.four_factors ->
          exists s,
            df_get ff_df f = Some s
            /\ df_get team_ff (role_suffix home f)
               = Some (mask_select (team_mask names (lower team)) s)).
Proof.
  intros Hwf Hnames Hstr Hff.
  assert (Hok : exists team_ff,
             get_team_ff (PyStr team) ff_df home = Ok team_ff
             /\ df_columns team_ff
                = map (role_suffix home) br_references.four_factors
             /\ Forall (fun col => List.length (snd col)
                                   = matching_rows names team) team_ff).
  { unfold get_team_ff, df_getattr. rewrite Hnames. cbn [bind].
    rewrite (series_str_with_string _ Hstr). cbn [bind py_lower].
    destruct (df_getitem_list_mask ff_df (team_mask names (lower team))
                br_references.four_factors Hwf) as (out & Hout & Hc & Hl).
    - unfold team_mask. rewrite length_map.
      unfold df_wf in Hwf. rewrite Forall_forall in Hwf.
      exact (Hwf _ (df_get_in _ _ _ Hnames)).
    - exact Hff.
    - rewrite Hout. cbn [bind].
      exists (df_rename (role_suffix home) out). split.
      + destruct home; reflexivity.
      + split.
        * unfold df_columns, df_rename in *. rewrite map_map.
          cbn [fst]. rewrite <- Hc. now rewrite map_map.
        * unfold df_rename, matching_rows. rewrite Forall_map.
          cbn [snd]. exact Hl. }
  destruct Hok as (team_ff & Hget & Hcols & Hrows).
  exists team_ff. split; [exact Hget|]. split; [exact Hcols|].
  split; [exact Hrows|].
  destruct (get_team_ff_inv _ _ _ _ Hget)
    as (t & names' & s1 & s2 & s3 & s4 & s5 & s6 & s7 & s8 & Ht & [Hn _]
        & H1 & H2 & H3 & H4 & H5 & H6 & H7 & H8 & ->).
  injection Ht as <-. rewrite Hnames in Hn. injection Hn as <-.
  intros f Hf. cbv [br_references.four_factors] in Hf. cbn [In] in Hf.
  split_in Hf; eexists; (split; [eassumption|]); destruct home; reflexivity.
Qed.

Lemma get_team_ff_keeps_matching_rows_witness :
  exists team_ff,
    get_team_ff (PyStr "los angeles lakers") ambiguous_stats false
    = Ok team_ff
    /\ df_columns team_ff
       = map (role_suffix false) br_references.four_factors
    /\ Forall (fun col => List.length (snd col) = 2%nat) team_ff
    /\ df_get team_ff "efg_pct_a" = Some [CFloat 0.52; CFloat 0.51].
Proof.
  destruct (get_team_ff_keeps_matching_rows "los angeles lakers"
              ambiguous_stats false
              [CStr "Boston Celtics"; CStr "LOS ANGELES LAKERS";
               CStr "Los Angeles Lakers"])
    as (team_ff & Hget & Hcols & Hrows & Hvals).
  - repeat constructor.
  - reflexivity.
  - reflexivity.
  - repeat constructor.
  - exists team_ff. split; [exact Hget|]. split; [exact Hcols|].
    split; [exact Hrows|].
    destruct (Hvals "efg_pct" (or_introl eq_refl)) as (s & Hs & Hv).
    injection Hs as <-. exact Hv.
Defined.

(** C6, as stated, fails: with no matching row the extraction returns an
    empty frame instead of raising, and with two rows that name the team in
    different case it returns both rows instead of raising. *)
Lemma get_team_ff_failure_counterexample :
  get_team_ff (PyStr "Seattle Supersonics") ambiguous_stats true
  = Ok [ ("efg_pct_h", []); ("tov_pct_h", []); ("orb_pct_h", []);
         ("ft_rate_h", []); ("opp_efg_pct_h", []); ("opp_tov_pct_h", []);
         ("drb_pct_h", []); ("opp_ft_rate_h", []) ]
  /\ get_team_ff (PyStr "Los Angeles Lakers") ambiguous_stats true
     = Ok [ ("efg_pct_h", [CFloat 0.52; CFloat 0.51]);
            ("tov_pct_h", [CFloat 12.5; CFloat 13.5]);
            ("orb_pct_h", [CFloat 22; CFloat 23]);
            ("ft_rate_h", [CFloat 0.2; CFloat 0.21]);
            ("opp_efg_pct_h", [CFloat 0.51; CFloat 0.52]);
            ("opp_tov_pct_h", [CFloat 13; CFloat 14]);
            ("drb_pct_h", [CFloat 78; CFloat 79]);
            ("opp_ft_rate_h", [CFloat 0.19; CFloat 0.2]) ]
  /\ (forall e,
        get_team_ff (PyStr "Seattle Supersonics") ambiguous_stats true
        <> Raise e)
  /\ (forall e,
        get_team_ff (PyStr "Los Angeles Lakers") ambiguous_stats true
        <> Raise e).
Proof.
  repeat split; try reflexivity; intros e; discriminate.
Qed.

(* ===================================================================== *)
(** ** The matchup feature builder *)
(* ===================================================================== *)

Lemma get_team_ff_columns (team : pyval) (ff_df : DataFrame) (home : bool)
    (team_ff : DataFrame) :
  get_team_ff team ff_df home = Ok team_ff ->
  df_columns team_ff = map (role_suffix home) br_references.four_factors.
Proof.
  unfold get_team_ff. intros H.
  destruct (df_getattr ff_df "team_name") as [names |]; [|discriminate].
  cbn [bind] in H. destruct (series_str names); [|discriminate].
  cbn [bind] in H. destruct (py_lower team); [|discriminate].
  cbn [bind] in H.
  destruct (df_getitem_list _ br_references.four_factors) as [out |] eqn:Hout;
    [|discriminate].
  apply df_getitem_list_columns in Hout. cbn [bind] in H.
  assert (Heq : team_ff = df_rename (role_suffix home) out)
    by (destruct home; now injection H as <-).
  subst team_ff. unfold df_columns, df_rename in *.
  rewrite map_map. cbn [fst]. rewrite <- Hout. now rewrite map_map.
Qed.

(** A single-row frame with eight known labels is eight singleton columns. *)
Lemma single_row_eight (df : DataFrame) (n1 n2 n3 n4 n5 n6 n7 n8 : string) :
  df_columns df = [n1; n2; n3; n4; n5; n6; n7; n8] -> single_row df ->
  exists v1 v2 v3 v4 v5 v6 v7 v8,
    df = [ (n1, [v1]); (n2, [v2]); (n3, [v3]); (n4, [v4]);
           (n5, [v5]); (n6, [v6]); (n7, [v7]); (n8, [v8]) ].
Proof.
  intros Hc Hs.
  do 8 (destruct df as [| [? [| ? [| ? ?]]] df];
        [discriminate Hc | exfalso; inversion Hs; discriminate
        | | exfalso; inversion Hs; discriminate];
        injection Hc as ? Hc; apply Forall_inv_tail in Hs).
  destruct df; [|discriminate Hc]. subst.
  repeat eexists.
Qed.

(** C2. For every pair of single-row home and away four-factor frames, as
    the extractor yields them, [create_prediction_df] returns a single-row
    frame with exactly 17 named entries: the eight home-suffixed factors,
    the eight away-suffixed factors and a constant column fixed at 1.0. Each
    factor keeps its input value, so the entries are numbers when the inputs
    are; the labels are in lexicographic order; and every call whose two
    inputs are equal returns the same frame. *)
Theorem create_prediction_df_spec (home_tm away_tm : pyval) (ff_df : DataFrame)
    (home_ff away_ff : DataFrame) :
  get_team_ff home_tm ff_df true = Ok home_ff ->
  get_team_ff away_tm ff_df false = Ok away_ff ->
  single_row home_ff -> single_row away_ff ->
  exists merged,
    create_prediction_df home_tm away_tm ff_df = Ok merged
    /\ List.length merged = 17%nat
    /\ single_row merged
    /\ df_columns merged = sort String.leb feature_labels
    /\ StronglySorted (fun a b => String.ltb a b = true) (df_columns merged)
    /\ df_get merged "const" = Some [CFloat 1]
    /\ (forall f, In f br_references.four_factors ->
          df_get merged (lm.append_h f) = df_get home_ff (lm.append_h f)
          /\ df_get merged (lm.append_a f) = df_get away_ff (lm.append_a f))
    /\ (all_numeric home_ff -> all_numeric away_ff -> all_numeric merged)
    /\ (forall home_tm' away_tm' ff_df',
          get_team_ff home_tm' ff_df' true = Ok home_ff ->
          get_team_ff away_tm' ff_df' false = Ok away_ff ->
          create_prediction_df home_tm' away_tm' ff_df' = Ok merged).
Proof.
  intros Hh Ha Hsh Hsa.
  destruct (single_row_eight home_ff _ _ _ _ _ _ _ _
              (get_team_ff_columns _ _ _ _ Hh) Hsh)
    as (h1 & h2 & h3 & h4 & h5 & h6 & h7 & h8 & ->).
  destruct (single_row_eight away_ff _ _ _ _ _ _ _ _
              (get_team_ff_columns _ _ _ _ Ha) Hsa)
    as (a1 & a2 & a3 & a4 & a5 & a6 & a7 & a8 & ->).
  eexists. split.
  { unfold create_prediction_df. rewrite Hh, Ha. reflexivity. }
  split; [reflexivity|].
  split; [repeat constructor|].
  split; [reflexivity|].
  split; [repeat constructor|].
  split; [reflexivity|].
  split.
  { intros f Hf. cbv [br_references.four_factors] in Hf. cbn [In] in Hf.
    split_in Hf; split; reflexivity. }
  split.
  { unfold all_numeric. intros Hnh Hna.
    repeat match goal with
           | H : Forall _ (_ :: _) |- _ =>
               let H1 := fresh in let H2 := fresh in
               assert (H1 := Forall_inv H); assert (H2 := Forall_inv_tail H);
               clear H; cbn [snd forallb] in H1
           end.
    repeat constructor; assumption. }
  intros home_tm' away_tm' ff_df' Hh' Ha'.
  unfold create_prediction_df. rewrite Hh', Ha'. reflexivity.
Qed.

Lemma create_prediction_df_spec_witness :
  exists merged,
    create_prediction_df (PyStr "BOSTON CELTICS") (PyStr "LOS ANGELES LAKERS")
      sample_stats = Ok merged
    /\ List.length merged = 17%nat
    /\ df_get merged "const" = Some [CFloat 1]
    /\ df_get merged "efg_pct_h" = Some [CFloat 0.53]
    /\ df_get merged "efg_pct_a" = Some [CFloat 0.52].
Proof.
  destruct (create_prediction_df_spec
              (PyStr "BOSTON CELTICS") (PyStr "LOS ANGELES LAKERS")
              sample_stats
              [ ("efg_pct_h", [CFloat 0.53]); ("tov_pct_h", [CFloat 11.5]);
                ("orb_pct_h", [CFloat 21]); ("ft_rate_h", [CFloat 0.19]);
                ("opp_efg_pct_h", [CFloat 0.5]); ("opp_tov_pct_h", [CFloat 12]);
                ("drb_pct_h", [CFloat 77]); ("opp_ft_rate_h", [CFloat 0.18]) ]
              [ ("efg_pct_a", [CFloat 0.52]); ("tov_pct_a", [CFloat 12.5]);
                ("orb_pct_a", [CFloat 22]); ("ft_rate_a", [CFloat 0.2]);
                ("opp_efg_pct_a", [CFloat 0.51]); ("opp_tov_pct_a", [CFloat 13]);
                ("drb_pct_a", [CFloat 78]); ("opp_ft_rate_a", [CFloat 0.19]) ])
    as (merged & Hm & Hlen & _ & _ & _ & Hconst & Hval & _).
  - reflexivity.
  - reflexivity.
  - repeat constructor.
  - repeat constructor.
  - exists merged. repeat split; try assumption.
    + exact (proj1 (Hval "efg_pct" (or_introl eq_refl))).
    + exact (proj2 (Hval "efg_pct" (or_introl eq_refl))).
Defined.

(* ===================================================================== *)
(** ** The day filter *)
(* ===================================================================== *)

Section DayFilter.

Local Open Scope Z_scope.

Ltac break_valid :=
  repeat match goal with
         | H : (_ && _)%bool = true |- _ => apply andb_prop in H; destruct H
         | H : (_ <=? _) = true |- _ => apply Z.leb_le in H
         | H : (_ <? _) = true |- _ => apply Z.ltb_lt in H
         end.

Ltac break_compare :=
  repeat match goal with
         | |- context [?a ?= ?b] => destruct (Z.compare_spec a b); try subst
         | H : context [?a ?= ?b] |- _ => destruct (Z.compare_spec a b); try subst
         end.

(** [make] yields midnight of a date that exists. *)
Lemma make_inv (y m d : Z) (date : datetime.t) :
  datetime.make y m d = Ok date ->
  date = datetime.mk y m d 0 0 0 0 /\ datetime.valid_date y m d = true.
Proof.
  unfold datetime.make.
  destruct (datetime.c_int y && datetime.c_int m && datetime.c_int d)%bool;
    [|discriminate].
  destruct (datetime.valid_date y m d); [|discriminate].
  intros H. injection H as <-. now split.
Qed.

(** The day after midnight of a date is midnight of a date too. *)
Lemma add_one_day_inv (y m d : Z) (next_day : datetime.t) :
  datetime.valid_date y m d = true ->
  datetime.add_one_day (datetime.mk y m d 0 0 0 0) = Ok next_day ->
  (d < datetime.days_in_month y m
   /\ next_day = datetime.mk y m (d + 1) 0 0 0 0)
  \/ (d = datetime.days_in_month y m /\ m < 12
      /\ next_day = datetime.mk y (m + 1) 1 0 0 0 0)
  \/ (d = datetime.days_in_month y m /\ m = 12
      /\ next_day = datetime.mk (y + 1) 1 1 0 0 0 0).
Proof.
  intros Hv. unfold datetime.valid_date in Hv. break_valid.
  unfold datetime.add_one_day. cbn [datetime.year datetime.month datetime.day
    datetime.hour datetime.minute datetime.second datetime.microsecond].
  destruct (Z.ltb_spec d (datetime.days_in_month y m)).
  - intros E. injection E as <-. left. now split.
  - destruct (Z.ltb_spec m 12).
    + intros E. injection E as <-. right. left. repeat split; lia.
    + destruct (Z.ltb_spec y datetime.MAXYEAR); [|discriminate].
      intros E. injection E as <-. right. right. repeat split; lia.
Qed.

Lemma days_in_month_pos (y m : Z) : 28 <= datetime.days_in_month y m <= 31.
Proof.
  unfold datetime.days_in_month.
  destruct (m =? 2); [destruct (datetime.is_leap y); lia|].
  destruct ((m =? 4) || (m =? 6) || (m =? 9) || (m =? 11))%bool; lia.
Qed.

(** A valid timestamp lies in [[date, date + 1 day)] exactly when its
    calendar date is the target date. *)
Lemma date_mask_same_date (y m d : Z) (date next_day x : datetime.t) :
  datetime.make y m d = Ok date ->
  datetime.add_one_day date = Ok next_day ->
  datetime.valid x = true ->
  (datetime.geb x date && datetime.ltb x next_day)%bool = true
  <-> (datetime.year x = y /\ datetime.month x = m /\ datetime.day x = d).
Proof.
  intros Hm Hn Hx.
  destruct (make_inv _ _ _ _ Hm) as [-> Hv].
  destruct (add_one_day_inv _ _ _ _ Hv Hn) as [[Hd ->] | [(Hd & Hmm & ->) | (Hd & Hmm & ->)]];
    destruct x as [xy xm xd xh xmi xs xu];
    unfold datetime.valid, datetime.valid_date, datetime.valid_time in Hx, Hv;
    cbn [datetime.year datetime.month datetime.day
         datetime.hour datetime.minute datetime.second datetime.microsecond] in *;
    break_valid;
    assert (Hdim := days_in_month_pos y m);
    unfold datetime.geb, datetime.ltb, datetime.compare, datetime.fields;
    cbn [datetime.year datetime.month datetime.day datetime.lex_compare
         datetime.hour datetime.minute datetime.second datetime.microsecond].
  all: split.
  all: try (intros (-> & -> & ->)).
  all: break_compare; cbn; try reflexivity; try lia; try discriminate.
Qed.

End DayFilter.

Lemma datetime_compare_refl (x : datetime.t) : datetime.compare x x = Eq.
Proof.
  unfold datetime.compare.
  induction (datetime.fields x) as [| z l IH]; [reflexivity|].
  cbn [datetime.lex_compare]. now rewrite Z.compare_refl.
Qed.

Lemma games_on_date_In (date next_day : datetime.t) (sched_df : list Sched.row)
    (row : Sched.row) :
  In row (games_on_date date next_day sched_df)
  <-> In row sched_df
      /\ datetime.geb (Sched.start_time row) date = true
      /\ datetime.ltb (Sched.start_time row) next_day = true.
Proof.
  unfold games_on_date, date_mask. rewrite filter_In, andb_true_iff.
  reflexivity.
Qed.

(** C8. With [date] the midnight that opens the target date and [next_day]
    that date plus one day, the day filter of [predict_games_on_day] keeps
    exactly the schedule rows whose [start_time] is at or after [date] and
    strictly before [next_day]; for valid timestamps these are the rows
    whose calendar date is the target date. A game starting at exactly
    midnight of the target date is kept, a game starting at exactly midnight
    of the following date is dropped. *)
Theorem day_filter_half_open (year month day : Z) (date next_day : datetime.t)
    (sched_df : list Sched.row) :
  datetime.make year month day = Ok date ->
  datetime.add_one_day date = Ok next_day ->
  (forall row,
      In row (games_on_date date next_day sched_df)
      <-> In row sched_df
          /\ datetime.geb (Sched.start_time row) date = true
          /\ datetime.ltb (Sched.start_time row) next_day = true)
  /\ (forall row,
      datetime.valid (Sched.start_time row) = true ->
      (In row (games_on_date date next_day sched_df)
       <-> In row sched_df
           /\ datetime.year (Sched.start_time row) = year
           /\ datetime.month (Sched.start_time row) = month
           /\ datetime.day (Sched.start_time row) = day))
  /\ (forall row,
      In row sched_df -> Sched.start_time row = date ->
      In row (games_on_date date next_day sched_df))
  /\ (forall row,
      Sched.start_time row = next_day ->
      ~ In row (games_on_date date next_day sched_df)).
Proof.
  intros Hm Hn. split; [|split; [|split]].
  - intros row. apply games_on_date_In.
  - intros row Hv. rewrite games_on_date_In.
    rewrite <- (date_mask_same_date year month day date next_day
                  (Sched.start_time row) Hm Hn Hv).
    rewrite andb_true_iff. reflexivity.
  - intros row Hin Hst. rewrite games_on_date_In. split; [exact Hin|].
    apply andb_true_iff.
    apply (date_mask_same_date year month day date next_day
             (Sched.start_time row) Hm Hn).
    + rewrite Hst. destruct (make_inv _ _ _ _ Hm) as [-> Hv].
      unfold datetime.valid. cbn. now rewrite Hv.
    + rewrite Hst. destruct (make_inv _ _ _ _ Hm) as [-> _]. now cbn.
  - intros row Hst Hin. apply games_on_date_In in Hin.
    destruct Hin as (_ & _ & Hlt). rewrite Hst in Hlt.
    unfold datetime.ltb in Hlt. rewrite datetime_compare_refl in Hlt.
    discriminate.
Qed.

Lemma day_filter_half_open_witness :
  games_on_date (datetime.mk 2018 10 17 0 0 0 0)
    (datetime.mk 2018 10 18 0 0 0 0) sample_sched
  = firstn 2 sample_sched
  /\ (forall row,
        Sched.start_time row = datetime.mk 2018 10 18 0 0 0 0 ->
        ~ In row (games_on_date (datetime.mk 2018 10 17 0 0 0 0)
                    (datetime.mk 2018 10 18 0 0 0 0) sample_sched)).
Proof.
  split; [reflexivity|].
  apply (day_filter_half_open 2018 10 17
           (datetime.mk 2018 10 17 0 0 0 0) (datetime.mk 2018 10 18 0 0 0 0)
           sample_sched); reflexivity.
Defined.

(* ===================================================================== *)
(** ** [predict_game] and [predict_games_on_day] *)
(* ===================================================================== *)

Section EngineFacts.

Variable env : Collaborators.

(** Once the model, both names, the table and the prediction are there,
    the outcome of [predict_game] is decided by the unpacking of what
    [line_probability] hands back. *)
Lemma predict_game_steps (start_time : datetime.t) (home_tm away_tm : pyval)
    (line : R) (year : Z) (reg : lm.Regression) (home away : pyval)
    (table ff_df pred_df : DataFrame) (prediction : R) :
  lm_main env year = Ok reg ->
  get_team_name home_tm = Ok home ->
  get_team_name away_tm = Ok away ->
  read_sql_table env ("misc_stats_" ++ str_of_int year) = Ok table ->
  df_getitem_list table (four_factors_list env) = Ok ff_df ->
  create_prediction_df home away ff_df = Ok pred_df ->
  get_prediction reg pred_df = Ok prediction ->
  predict_game env start_time home_tm away_tm line year
  = match line_probability prediction line (lm.residuals_std reg) with
    | LPPair probability function =>
        Ok (PredictionResult.mk start_time home away line
              prediction probability function)
    | LPScalar _ => Raise TypeError
    | LPNone => Raise TypeError
    end.
Proof.
  intros H1 H2 H3 H4 H5 H6 H7.
  unfold predict_game.
  rewrite H1; cbn [bind]. rewrite H2; cbn [bind]. rewrite H3; cbn [bind].
  rewrite H4; cbn [bind]. rewrite H5; cbn [bind]. rewrite H6; cbn [bind].
  rewrite H7; cbn [bind]. reflexivity.
Qed.

(** A result handed back by [predict_game] records the line it was given
    and a prediction different from the negated line. *)
Lemma predict_game_returned (start_time : datetime.t)
    (home_tm away_tm : pyval) (line : R) (year : Z)
    (r : PredictionResult.t) :
  predict_game env start_time home_tm away_tm line year = Ok r ->
  PredictionResult.line r = line
  /\ PredictionResult.prediction r <> (- line)%R.
Proof.
  unfold predict_game. intros H.
  destruct (lm_main env year) as [reg |]; [|discriminate].
  cbn [bind] in H.
  destruct (get_team_name home_tm) as [home |]; [|discriminate].
  cbn [bind] in H.
  destruct (get_team_name away_tm) as [away |]; [|discriminate].
  cbn [bind] in H.
  destruct (read_sql_table env _) as [table |]; [|discriminate].
  cbn [bind] in H.
  destruct (df_getitem_list table _) as [ff_df |]; [|discriminate].
  cbn [bind] in H.
  destruct (create_prediction_df home away ff_df) as [pred_df |];
    [|discriminate].
  cbn [bind] in H.
  destruct (get_prediction reg pred_df) as [prediction |]; [|discriminate].
  cbn [bind] in H.
  destruct (line_probability prediction line (lm.residuals_std reg))
    as [q tag | q |] eqn:Hlp; try discriminate.
  injection H as <-. cbn. split; [reflexivity|].
  intros Heq. rewrite (line_probability_eq _ _ _ Heq) in Hlp. discriminate.
Qed.

(** C10. Whenever the prediction equals the negated line,
    [line_probability] hands back the bare float 0.5 and no pair, so the
    unpacking into a probability and a tag in [predict_game] raises:
    [predict_game] returns no prediction result for such a game. *)
Theorem predict_game_equal_case_raises (start_time : datetime.t)
    (home_tm away_tm : pyval) (line : R) (year : Z) (reg : lm.Regression)
    (home away : pyval) (table ff_df pred_df : DataFrame) (prediction : R) :
  lm_main env year = Ok reg ->
  get_team_name home_tm = Ok home ->
  get_team_name away_tm = Ok away ->
  read_sql_table env ("misc_stats_" ++ str_of_int year) = Ok table ->
  df_getitem_list table (four_factors_list env) = Ok ff_df ->
  create_prediction_df home away ff_df = Ok pred_df ->
  get_prediction reg pred_df = Ok prediction ->
  prediction = (- line)%R ->
  (forall p l std, p = (- l)%R -> line_probability p l std = LPScalar (1 / 2)%R)
  /\ predict_game env start_time home_tm away_tm line year = Raise TypeError
  /\ (forall r,
        predict_game env start_time home_tm away_tm line year <> Ok r)
  /\ (forall start_time' home_tm' away_tm' line' year' r,
        predict_game env start_time' home_tm' away_tm' line' year' = Ok r ->
        PredictionResult.prediction r <> (- PredictionResult.line r)%R).
Proof.
  intros H1 H2 H3 H4 H5 H6 H7 Heq.
  assert (Hlp := line_probability_eq prediction line
                   (lm.residuals_std reg) Heq).
  assert (Hg := predict_game_steps start_time home_tm away_tm line year
                  reg home away table ff_df pred_df prediction
                  H1 H2 H3 H4 H5 H6 H7).
  rewrite Hlp in Hg. split; [exact line_probability_eq|].
  split; [exact Hg|]. split.
  - intros r Hr. rewrite Hg in Hr. discriminate.
  - intros st h a l y r Hr.
    destruct (predict_game_returned st h a l y r Hr) as (-> & Hne).
    exact Hne.
Qed.

(** In a run of the loop in which every call returns, every row is
    predicted, in order. *)
Lemma predict_rows_all_ok (args : Sched.row -> game_call)
    (rows : list Sched.row) :
  Forall (fun row => is_ok (run_call env (args row)) = true) rows ->
  predict_rows env args rows = (map args rows, Ok tt).
Proof.
  induction 1 as [| row rest Hrow _ IH]; cbn [predict_rows map].
  - reflexivity.
  - destruct (run_call env (args row)); [|discriminate].
    now rewrite IH.
Qed.

(** The calls made are an initial part of the rows, in order. *)
Lemma predict_rows_prefix (args : Sched.row -> game_call)
    (rows : list Sched.row) :
  exists k, fst (predict_rows env args rows) = firstn k (map args rows).
Proof.
  induction rows as [| row rest [k IH]]; cbn [predict_rows map].
  - exists 0%nat. reflexivity.
  - destruct (run_call env (args row)).
    + exists (S k). destruct (predict_rows env args rest) as [calls r].
      cbn [fst firstn] in *. now rewrite IH.
    + exists 1%nat. reflexivity.
Qed.

Lemma predict_games_on_day_lines_eq (day month year : Z)
    (sched_df : list Sched.row) (date next_day : datetime.t) :
  datetime.make year month day = Ok date ->
  datetime.add_one_day date = Ok next_day ->
  games_on_date date next_day sched_df <> [] ->
  predict_games_on_day env day month year sched_df true
  = (fst (predict_rows env lines_call
            (games_on_date date next_day sched_df)),
     _ <- snd (predict_rows env lines_call
                 (games_on_date date next_day sched_df)) ;; Ok DayNone).
Proof.
  intros Hm Hn Hne. unfold predict_games_on_day. rewrite Hm, Hn.
  destruct (games_on_date date next_day sched_df) as [| g gs] eqn:Hg;
    [contradiction|].
  cbn [List.length Nat.ltb Nat.leb nth].
  change (fun row : Sched.row =>
            {| arg_start_time := Sched.start_time row;
               arg_home_tm := PyStr (Sched.home_team row);
               arg_away_tm := PyStr (Sched.away_team row);
               arg_line := 4%R |}) with lines_call.
  now destruct (predict_rows env lines_call (g :: gs)).
Qed.

(** When a call of the loop raises, the loop has made the calls up to that
    one and ends with its exception. *)
Lemma predict_rows_first_failure (args : Sched.row -> game_call)
    (before after : list Sched.row) (row : Sched.row) (e : exn) :
  Forall (fun r => is_ok (run_call env (args r)) = true) before ->
  run_call env (args row) = Raise e ->
  predict_rows env args (before ++ row :: after)
  = (map args (before ++ [row]), Raise e).
Proof.
  intros Hb Hrow. induction Hb as [| r rest Hr _ IH];
    cbn [app predict_rows map].
  - now rewrite Hrow.
  - destruct (run_call env (args r)); [|discriminate].
    now rewrite IH.
Qed.

(** C5, as the code has it. For every date with at least one scheduled
    game, when lines are requested [predict_games_on_day] calls
    [predict_game] for the schedule rows of that date, one call per row in
    schedule order, each against the first sample line, 4, and stops at
    the first call that raises. When every call returns, every row of the
    date is predicted and the function hands back [None]: the prediction
    results are dropped, no sequence of them is returned. *)
Theorem predict_games_on_day_with_lines (day month year : Z)
    (sched_df : list Sched.row) (date next_day : datetime.t) :
  datetime.make year month day = Ok date ->
  datetime.add_one_day date = Ok next_day ->
  games_on_date date next_day sched_df <> [] ->
  (exists k,
      fst (predict_games_on_day env day month year sched_df true)
      = firstn k (map lines_call (games_on_date date next_day sched_df)))
  /\ (Forall (fun row => is_ok (run_call env (lines_call row)) = true)
        (games_on_date date next_day sched_df) ->
      predict_games_on_day env day month year sched_df true
      = (map lines_call (games_on_date date next_day sched_df),
         Ok DayNone))
  /\ (forall before game after e,
        games_on_date date next_day sched_df
        = (before ++ game :: after)%list ->
        Forall (fun row => is_ok (run_call env (lines_call row)) = true)
               before ->
        run_call env (lines_call game) = Raise e ->
        predict_games_on_day env day month year sched_df true
        = (map lines_call (before ++ [game]), Raise e))
  /\ (forall results,
        snd (predict_games_on_day env day month year sched_df true)
        <> Ok (DayResults results)).
Proof.
  intros Hm Hn Hne.
  rewrite (predict_games_on_day_lines_eq day month year sched_df
             date next_day Hm Hn Hne).
  cbn [fst snd]. split; [|split; [|split]].
  - apply predict_rows_prefix.
  - intros Hall. now rewrite (predict_rows_all_ok _ _ Hall).
  - intros before game after e Hg Hb He.
    rewrite Hg, (predict_rows_first_failure lines_call before after game e
                   Hb He).
    reflexivity.
  - intros results.
    destruct (snd (predict_rows env lines_call
                     (games_on_date date next_day sched_df)));
      discriminate.
Qed.

(** Without lines, the first call of the loop passes the list
    [["home_team"]] as the home team, which [get_team_name] cannot lower:
    once the model is fitted the call raises and the loop ends there. *)
Lemma predict_games_on_day_without_lines (day month year : Z)
    (sched_df : list Sched.row) (date next_day : datetime.t)
    (reg : lm.Regression) (game : Sched.row) (games : list Sched.row) :
  datetime.make year month day = Ok date ->
  datetime.add_one_day date = Ok next_day ->
  games_on_date date next_day sched_df = game :: games ->
  lm_main env 2019 = Ok reg ->
  predict_games_on_day env day month year sched_df false
  = ([ {| arg_start_time := Sched.start_time game;
          arg_home_tm := PyStrList ["home_team"];
          arg_away_tm := PyStr (Sched.away_team game);
          arg_line := 0%R |} ],
     Raise AttributeError).
Proof.
  intros Hm Hn Hg Hreg. unfold predict_games_on_day. rewrite Hm, Hn, Hg.
  cbn [List.length Nat.ltb Nat.leb predict_rows].
  unfold run_call, predict_game.
  cbn [arg_start_time arg_home_tm arg_away_tm arg_line].
  rewrite Hreg. reflexivity.
Qed.

(** C9. For every date and schedule, when no schedule row has its
    [start_time] on that date, [predict_games_on_day] raises the
    no-games exception, whether lines are requested or not, without
    predicting any game or returning a value. *)
Theorem predict_games_on_day_no_games (day month year : Z)
    (sched_df : list Sched.row) (lines : bool)
    (date next_day : datetime.t) :
  datetime.make year month day = Ok date ->
  datetime.add_one_day date = Ok next_day ->
  games_on_date date next_day sched_df = [] ->
  predict_games_on_day env day month year sched_df lines
  = ([], Raise (PyException (no_games_message month day year)))
  /\ (forall v,
        snd (predict_games_on_day env day month year sched_df lines)
        <> Ok v).
Proof.
  intros Hm Hn Hg. unfold predict_games_on_day. rewrite Hm, Hn, Hg.
  cbn [List.length Nat.ltb Nat.leb]. split; [reflexivity|].
  intros v. discriminate.
Qed.

End EngineFacts.

Lemma predict_game_equal_case_raises_witness :
  predict_game sample_env opening_night
    (PyStr "Boston Celtics") (PyStr "Los Angeles Lakers") (-4) 2019
  = Raise TypeError.
Proof.
  apply (predict_game_equal_case_raises sample_env opening_night
           (PyStr "Boston Celtics") (PyStr "Los Angeles Lakers") (-4) 2019
           sample_model (PyStr "BOSTON CELTICS") (PyStr "LOS ANGELES LAKERS")
           sample_stats sample_stats
           [ ("const", [CFloat 1]);
             ("drb_pct_a", [CFloat 78]); ("drb_pct_h", [CFloat 77]);
             ("efg_pct_a", [CFloat 0.52]); ("efg_pct_h", [CFloat 0.53]);
             ("ft_rate_a", [CFloat 0.2]); ("ft_rate_h", [CFloat 0.19]);
             ("opp_efg_pct_a", [CFloat 0.51]); ("opp_efg_pct_h", [CFloat 0.5]);
             ("opp_ft_rate_a", [CFloat 0.19]); ("opp_ft_rate_h", [CFloat 0.18]);
             ("opp_tov_pct_a", [CFloat 13]); ("opp_tov_pct_h", [CFloat 12]);
             ("orb_pct_a", [CFloat 22]); ("orb_pct_h", [CFloat 21]);
             ("tov_pct_a", [CFloat 12.5]); ("tov_pct_h", [CFloat 11.5]) ]
           4%R); try reflexivity.
  lra.
Defined.

Lemma sample_calls_return :
  Forall (fun row => is_ok (run_call sample_env (lines_call row)) = true)
         (games_on_date opening_night next_morning sample_sched).
Proof.
  change (games_on_date opening_night next_morning sample_sched)
    with (firstn 2 sample_sched).
  cbn [firstn sample_sched].
  repeat constructor.
  - unfold run_call, lines_call. cbn [arg_start_time arg_home_tm arg_away_tm
      arg_line Sched.start_time Sched.home_team Sched.away_team].
    erewrite predict_game_steps with (prediction := 4%R);
      try reflexivity.
    rewrite line_probability_cdf by lra. reflexivity.
  - unfold run_call, lines_call. cbn [arg_start_time arg_home_tm arg_away_tm
      arg_line Sched.start_time Sched.home_team Sched.away_team].
    erewrite predict_game_steps with (prediction := 4%R);
      try reflexivity.
    rewrite line_probability_cdf by lra. reflexivity.
Qed.

Lemma predict_games_on_day_with_lines_witness :
  predict_games_on_day sample_env 17 10 2018 sample_sched true
  = (map lines_call (firstn 2 sample_sched), Ok DayNone).
Proof.
  apply (proj1 (proj2 (predict_games_on_day_with_lines
                         sample_env 17 10 2018 sample_sched
                         opening_night next_morning eq_refl eq_refl
                         ltac:(discriminate)))).
  exact sample_calls_return.
Defined.

(** C5, as stated, fails: on a date with two scheduled games and with lines
    requested, both games are predicted against the line 4 and the function
    hands back [None], not a sequence of results. *)
Lemma predict_games_on_day_sequence_counterexample :
  games_on_date opening_night next_morning sample_sched
  = firstn 2 sample_sched
  /\ predict_games_on_day sample_env 17 10 2018 sample_sched true
     = (map lines_call (firstn 2 sample_sched), Ok DayNone)
  /\ (forall results,
        snd (predict_games_on_day sample_env 17 10 2018 sample_sched true)
        <> Ok (DayResults results)).
Proof.
  assert (H : predict_games_on_day sample_env 17 10 2018 sample_sched true
              = (map lines_call (firstn 2 sample_sched), Ok DayNone)).
  { rewrite (predict_games_on_day_lines_eq sample_env 17 10 2018 sample_sched
               opening_night next_morning eq_refl eq_refl);
      [|discriminate].
    now rewrite (predict_rows_all_ok sample_env _ _ sample_calls_return). }
  split; [reflexivity|]. split; [exact H|].
  intros results. rewrite H. discriminate.
Qed.

Lemma predict_games_on_day_no_games_witness :
  predict_games_on_day sample_env 19 10 2018 sample_sched false
  = ([], Raise (PyException "No games on 10/19/2018")).
Proof.
  apply (predict_games_on_day_no_games sample_env 19 10 2018 sample_sched
           false (datetime.mk 2018 10 19 0 0 0 0)
           (datetime.mk 2018 10 20 0 0 0 0)); reflexivity.
Defined.

(* ===================================================================== *)
(** * Part IV: further properties of the code *)
(* ===================================================================== *)

(* ===================================================================== *)
(** ** More on the team name resolver *)
(* ===================================================================== *)

Lemma lower_ascii_idempotent (c : ascii) :
  lower_ascii (lower_ascii c) = lower_ascii c.
Proof. destruct c as [[] [] [] [] [] [] [] []]; reflexivity. Qed.

Lemma lower_idempotent (s : string) : lower (lower s) = lower s.
Proof.
  induction s as [| c s IH]; [reflexivity|].
  cbn [lower]. now rewrite lower_ascii_idempotent, IH.
Qed.

Lemma get_team_name_loop_lower (a b : string)
    (teams : list br_references.Team) :
  lower a = lower b ->
  get_team_name_loop (PyStr a) teams = get_team_name_loop (PyStr b) teams.
Proof.
  intros Hab. induction teams as [| t rest IH];
    cbn [get_team_name_loop py_lower bind]; [reflexivity|].
  now rewrite Hab, IH.
Qed.

Lemma get_team_name_member (t : br_references.Team) :
  get_team_name (PyStr (br_references.value t))
  = Ok (PyStr (br_references.value t)).
Proof. destruct t; reflexivity. Qed.

(** X1. Every canonical name resolves to itself, and so does every name
    written in another case; hence resolving twice gives what resolving
    once gives. *)
Theorem get_team_name_idempotent (input c : string) :
  get_team_name (PyStr input) = Ok (PyStr c) ->
  get_team_name (PyStr c) = Ok (PyStr c)
  /\ (forall other, lower other = lower c ->
        get_team_name (PyStr other) = Ok (PyStr c)).
Proof.
  intros H. unfold get_team_name in H.
  apply get_team_name_loop_found in H.
  destruct H as (before & after & Hl & _ & _).
  assert (Hin : In c (map br_references.value br_references.members)).
  { rewrite Hl. apply in_or_app. right. now left. }
  apply in_map_iff in Hin. destruct Hin as (t & <- & _).
  split; [apply get_team_name_member|].
  intros other Ho. unfold get_team_name.
  rewrite (get_team_name_loop_lower other (br_references.value t) _ Ho).
  apply get_team_name_member.
Qed.

Lemma get_team_name_idempotent_witness :
  get_team_name (PyStr "LOS ANGELES LAKERS") = Ok (PyStr "LOS ANGELES LAKERS")
  /\ (forall other, lower other = lower "LOS ANGELES LAKERS" ->
        get_team_name (PyStr other) = Ok (PyStr "LOS ANGELES LAKERS")).
Proof.
  apply (get_team_name_idempotent "los angeles Lakers" "LOS ANGELES LAKERS").
  reflexivity.
Defined.

(** X2. The resolver looks at its input only up to case: two inputs with
    the same lower-casing get the same answer, and an input gets the answer
    of its own lower-casing. *)
Theorem get_team_name_case_insensitive (a b : string) :
  lower a = lower b ->
  get_team_name (PyStr a) = get_team_name (PyStr b)
  /\ get_team_name (PyStr (lower a)) = get_team_name (PyStr a).
Proof.
  intros Hab. unfold get_team_name. split.
  - now apply get_team_name_loop_lower.
  - apply get_team_name_loop_lower. apply lower_idempotent.
Qed.

Lemma get_team_name_case_insensitive_witness :
  get_team_name (PyStr "boston CELTICS") = get_team_name (PyStr "Boston Celtics")
  /\ get_team_name (PyStr (lower "boston CELTICS"))
     = get_team_name (PyStr "boston CELTICS").
Proof.
  apply (get_team_name_case_insensitive "boston CELTICS" "Boston Celtics").
  reflexivity.
Defined.

(** Given a list of strings or [None] instead of a string,
    [get_team_name] raises at the first comparison. *)
Lemma get_team_name_not_a_string :
  (forall l, get_team_name (PyStrList l) = Raise AttributeError)
  /\ get_team_name PyNone = Raise AttributeError.
Proof. split; [intros l|]; reflexivity. Qed.

(* ===================================================================== *)
(** ** More on the four-factors extractor *)
(* ===================================================================== *)

(** X3. What the extraction raises: [AttributeError] when the table has no
    [team_name] column, or a [team_name] column of numbers, whatever the
    team; [AttributeError] when the team is not a string; [KeyError] when
    the team is a string, the [team_name] column holds a string and one of
    the eight four-factor columns is missing. *)
Theorem get_team_ff_raises (ff_df : DataFrame) (home : bool) :
  (df_has ff_df "team_name" = false ->
   forall team, get_team_ff team ff_df home = Raise AttributeError)
  /\ (forall names,
        df_get ff_df "team_name" = Some names ->
        names <> [] -> forallb is_numeric names = true ->
        forall team, get_team_ff team ff_df home = Raise AttributeError)
  /\ (forall l, get_team_ff (PyStrList l) ff_df home = Raise AttributeError)
  /\ get_team_ff PyNone ff_df home = Raise AttributeError
  /\ (forall names,
        df_get ff_df "team_name" = Some names ->
        existsb is_str names = true ->
        forall team f,
          In f br_references.four_factors -> df_has ff_df f = false ->
          get_team_ff (PyStr team) ff_df home = Raise KeyError).
Proof.
  unfold get_team_ff, df_getattr, df_has.
  split; [|split; [|split; [|split]]].
  - intros H team. destruct (df_get ff_df "team_name"); [discriminate|].
    reflexivity.
  - intros names Hn Hne Hnum team. rewrite Hn. cbn [bind].
    assert (Hs : existsb is_str names = false).
    { clear Hn Hne. induction names as [| c names IH]; [reflexivity|].
      cbn [forallb existsb] in *. apply andb_prop in Hnum.
      destruct Hnum as [Hc Hrest]. rewrite (IH Hrest).
      destruct c; try discriminate; reflexivity. }
    unfold series_str. destruct names as [| c names]; [contradiction|].
    now rewrite Hs.
  - intros l. destruct (df_get ff_df "team_name") as [names |];
      [|reflexivity].
    cbn [bind]. destruct (series_str names) as [n | e] eqn:Hs;
      [reflexivity|].
    now rewrite (series_str_raises _ _ Hs).
  - destruct (df_get ff_df "team_name") as [names |]; [|reflexivity].
    cbn [bind]. destruct (series_str names) as [n | e] eqn:Hs;
      [reflexivity|].
    now rewrite (series_str_raises _ _ Hs).
  - intros names Hn Hstr team f Hf Hmiss. rewrite Hn. cbn [bind].
    rewrite (series_str_with_string _ Hstr). cbn [bind py_lower].
    assert (Hm : forall n, df_get ff_df n = None ->
                 df_getitem (df_mask ff_df (team_mask names (lower team))) n
                 = Raise KeyError).
    { intros n Hnone. unfold df_getitem. rewrite df_get_mask, Hnone.
      reflexivity. }
    assert (Hs : forall n, df_getitem
                   (df_mask ff_df (team_mask names (lower team))) n
                 = Raise KeyError
                 \/ exists s, df_getitem
                     (df_mask ff_df (team_mask names (lower team))) n = Ok s).
    { intros n. unfold df_getitem.
      destruct (df_get (df_mask ff_df (team_mask names (lower team))) n);
        [right; eauto | now left]. }
    assert (Hf' : df_get ff_df f = None)
      by (destruct (df_get ff_df f); [discriminate | reflexivity]).
    assert (Hloop : forall names',
               In f names' ->
               df_getitem_list
                 (df_mask ff_df (team_mask names (lower team))) names'
               = Raise KeyError).
    { induction names' as [| n rest IH]; [intros []|].
      intros [-> | Hin]; cbn [df_getitem_list].
      - rewrite (Hm f Hf'). reflexivity.
      - destruct (Hs n) as [-> | [s ->]]; [reflexivity|].
        cbn [bind]. rewrite (IH Hin). reflexivity. }
    rewrite (Hloop _ Hf). reflexivity.
Qed.

Lemma get_team_ff_raises_witness :
  get_team_ff (PyStr "Boston Celtics") [("efg_pct", [CFloat 0.5])] true
  = Raise AttributeError
  /\ get_team_ff (PyStr "Boston Celtics")
       [("team_name", [CInt 1; CInt 2]); ("efg_pct", [CFloat 0.5; CFloat 0.4])]
       true
     = Raise AttributeError
  /\ get_team_ff (PyStr "Boston Celtics")
       [("team_name", [CStr "Boston Celtics"]); ("efg_pct", [CFloat 0.5])]
       true
     = Raise KeyError.
Proof.
  split; [|split].
  - apply (get_team_ff_raises [("efg_pct", [CFloat 0.5])] true);
      reflexivity.
  - apply (proj1 (proj2 (get_team_ff_raises
             [("team_name", [CInt 1; CInt 2]);
              ("efg_pct", [CFloat 0.5; CFloat 0.4])] true))
             [CInt 1; CInt 2]);
      first [reflexivity | discriminate].
  - apply (proj2 (proj2 (proj2 (proj2 (get_team_ff_raises
             [("team_name", [CStr "Boston Celtics"]); ("efg_pct", [CFloat 0.5])]
             true))))
             [CStr "Boston Celtics"] eq_refl eq_refl "Boston Celtics"
             "tov_pct");
      first [reflexivity | cbn; tauto].
Defined.

(** X4. Each column of an extraction is the source column of that factor
    restricted to the rows whose [team_name] equals the team up to case,
    in table order; the other columns of the table play no part. *)
Theorem get_team_ff_values (team : string) (ff_df : DataFrame) (home : bool)
    (team_ff : DataFrame) :
  get_team_ff (PyStr team) ff_df home = Ok team_ff ->
  exists names,
    df_get ff_df "team_name" = Some names
    /\ forall f, In f br_references.four_factors ->
         exists s,
           df_get ff_df f = Some s
           /\ df_get team_ff (role_suffix home f)
              = Some (mask_select (team_mask names (lower team)) s).
Proof.
  intros H.
  destruct (get_team_ff_inv _ _ _ _ H)
    as (t & names & s1 & s2 & s3 & s4 & s5 & s6 & s7 & s8 & Ht & Hn
        & H1 & H2 & H3 & H4 & H5 & H6 & H7 & H8 & ->).
  injection Ht as <-.
  exists names. split; [exact (proj1 Hn)|].
  intros f Hf. cbv [br_references.four_factors] in Hf. cbn [In] in Hf.
  split_in Hf; eexists; (split; [eassumption|]); destruct home; reflexivity.
Qed.

Lemma get_team_ff_values_witness :
  exists names,
    df_get sample_stats "team_name" = Some names
    /\ forall f, In f br_references.four_factors ->
         exists s,
           df_get sample_stats f = Some s
           /\ df_get
                [ ("efg_pct_h", [CFloat 0.52]); ("tov_pct_h", [CFloat 12.5]);
                  ("orb_pct_h", [CFloat 22]); ("ft_rate_h", [CFloat 0.2]);
                  ("opp_efg_pct_h", [CFloat 0.51]);
                  ("opp_tov_pct_h", [CFloat 13]);
                  ("drb_pct_h", [CFloat 78]); ("opp_ft_rate_h", [CFloat 0.19]) ]
                (role_suffix true f)
              = Some (mask_select
                        (team_mask names (lower "LOS ANGELES LAKERS")) s).
Proof.
  apply (get_team_ff_values "LOS ANGELES LAKERS" sample_stats true).
  reflexivity.
Defined.

(** X5. The role changes the labels only: the home and the away extraction
    of a team succeed together and carry the same series in the same
    order, under labels that never coincide. *)
Theorem get_team_ff_roles (team : pyval) (ff_df : DataFrame)
    (home_ff : DataFrame) :
  get_team_ff team ff_df true = Ok home_ff ->
  exists away_ff,
    get_team_ff team ff_df false = Ok away_ff
    /\ map snd home_ff = map snd away_ff
    /\ (forall label, In label (df_columns home_ff) ->
          ~ In label (df_columns away_ff)).
Proof.
  intros H.
  assert (Hc := get_team_ff_columns _ _ _ _ H).
  destruct (get_team_ff_inv _ _ _ _ H)
    as (t & names & s1 & s2 & s3 & s4 & s5 & s6 & s7 & s8 & -> & [Hn Hstr]
        & H1 & H2 & H3 & H4 & H5 & H6 & H7 & H8 & ->).
  eexists. split.
  - unfold get_team_ff, df_getattr. rewrite Hn. cbn [bind].
    rewrite Hstr. cbn [bind py_lower].
    cbv [br_references.four_factors]. cbn [df_getitem_list].
    unfold df_getitem. rewrite !df_get_mask.
    rewrite H1, H2, H3, H4, H5, H6, H7, H8. reflexivity.
  - split; [reflexivity|].
    intros label Hin Hin'. cbn in Hin, Hin'.
    split_in Hin; split_in Hin'; discriminate.
Qed.

Lemma get_team_ff_roles_witness :
  exists away_ff,
    get_team_ff (PyStr "Boston Celtics") sample_stats false = Ok away_ff
    /\ [ [CFloat 0.53]; [CFloat 11.5]; [CFloat 21]; [CFloat 0.19];
         [CFloat 0.5]; [CFloat 12]; [CFloat 77]; [CFloat 0.18] ]
       = map snd away_ff.
Proof.
  destruct (get_team_ff_roles (PyStr "Boston Celtics") sample_stats
              [ ("efg_pct_h", [CFloat 0.53]); ("tov_pct_h", [CFloat 11.5]);
                ("orb_pct_h", [CFloat 21]); ("ft_rate_h", [CFloat 0.19]);
                ("opp_efg_pct_h", [CFloat 0.5]); ("opp_tov_pct_h", [CFloat 12]);
                ("drb_pct_h", [CFloat 77]); ("opp_ft_rate_h", [CFloat 0.18]) ]
              eq_refl) as (away_ff & Ha & Hs & _).
  exists away_ff. split; assumption.
Defined.

(* ===================================================================== *)
(** ** More on the matchup feature builder *)
(* ===================================================================== *)

Lemma insert_sorted_length (A : Type) (leb : A -> A -> bool) (x : A)
    (l : list A) :
  List.length (insert_sorted leb x l) = S (List.length l).
Proof.
  induction l as [| y l IH]; [reflexivity|].
  cbn [insert_sorted]. destruct (leb x y); cbn [List.length]; [reflexivity|].
  now rewrite IH.
Qed.

Lemma sort_length (A : Type) (leb : A -> A -> bool) (l : list A) :
  List.length (sort leb l) = List.length l.
Proof.
  induction l as [| x l IH]; [reflexivity|].
  cbn [sort]. rewrite insert_sorted_length. cbn [List.length]. now rewrite IH.
Qed.

Lemma filter_all (A : Type) (f : A -> bool) (l : list A) :
  (forall x, In x l -> f x = true) -> filter f l = l.
Proof.
  induction l as [| x l IH]; intros H; [reflexivity|].
  cbn [filter]. rewrite (H x (or_introl eq_refl)).
  f_equal. apply IH. intros y Hy. apply H. now right.
Qed.

Lemma list_sum_const (A : Type) (n : nat) (l : list A) :
  list_sum (map (fun _ => n) l) = (List.length l * n)%nat.
Proof.
  induction l as [| x l IH]; [reflexivity|].
  unfold list_sum in *. cbn [map fold_right List.length]. rewrite IH. lia.
Qed.

(** Joining [m] keys 1 with [n] keys 1 pairs every left row with every
    right row. *)
Lemma join_pairs_ones (m n : nat) :
  List.length (join_pairs (repeat (CInt 1) m) (repeat (CInt 1) n))
  = (m * n)%nat.
Proof.
  unfold join_pairs. rewrite sort_length, length_flat_map, !repeat_length.
  rewrite (map_ext_in _ (fun _ => n)).
  - now rewrite list_sum_const, length_seq.
  - intros i Hi. apply in_seq in Hi. rewrite length_map.
    rewrite filter_all; [apply length_seq|].
    intros j Hj. apply in_seq in Hj.
    rewrite !nth_repeat_lt by lia. reflexivity.
Qed.

(** A frame with eight known labels is eight columns. *)
Lemma eight_columns (df : DataFrame) (n1 n2 n3 n4 n5 n6 n7 n8 : string) :
  df_columns df = [n1; n2; n3; n4; n5; n6; n7; n8] ->
  exists s1 s2 s3 s4 s5 s6 s7 s8,
    df = [ (n1, s1); (n2, s2); (n3, s3); (n4, s4);
           (n5, s5); (n6, s6); (n7, s7); (n8, s8) ].
Proof.
  intros Hc.
  do 8 (destruct df as [| [? ?] df]; [discriminate Hc|];
        injection Hc as ? Hc).
  destruct df; [|discriminate Hc]. subst. repeat eexists.
Qed.

(** X6. Whatever the number of rows the two extractions hold, once both
    succeed [create_prediction_df] raises nothing and returns the 17
    feature labels in lexicographic order; it holds one row for every pair
    of a home row and an away row, so no row at all when either team
    matches no row of the table. *)
Theorem create_prediction_df_cross_join (home_tm away_tm : pyval)
    (ff_df home_ff away_ff : DataFrame) :
  get_team_ff home_tm ff_df true = Ok home_ff ->
  get_team_ff away_tm ff_df false = Ok away_ff ->
  exists merged,
    create_prediction_df home_tm away_tm ff_df = Ok merged
    /\ df_columns merged = sort String.leb feature_labels
    /\ Forall (fun col => List.length (snd col)
                          = (df_len home_ff * df_len away_ff)%nat) merged.
Proof.
  intros Hh Ha.
  destruct (eight_columns home_ff _ _ _ _ _ _ _ _
              (get_team_ff_columns _ _ _ _ Hh))
    as (h1 & h2 & h3 & h4 & h5 & h6 & h7 & h8 & ->).
  destruct (eight_columns away_ff _ _ _ _ _ _ _ _
              (get_team_ff_columns _ _ _ _ Ha))
    as (a1 & a2 & a3 & a4 & a5 & a6 & a7 & a8 & ->).
  unfold create_prediction_df. rewrite Hh, Ha.
  cbv -[join_pairs take repeat List.length Nat.mul].
  eexists. split; [reflexivity|]. split; [reflexivity|].
  set (pairs := join_pairs (repeat (CInt 1) (List.length h1))
                           (repeat (CInt 1) (List.length a1))).
  repeat (apply Forall_cons;
          [lazy beta iota; unfold take; rewrite length_map;
           match goal with
           | |- List.length ?l = _ =>
               first [ change l with (map fst pairs)
                     | change l with (map snd pairs) ]
           end;
           rewrite length_map; apply join_pairs_ones|]).
  apply Forall_nil.
Qed.

Lemma create_prediction_df_cross_join_witness :
  exists merged,
    create_prediction_df (PyStr "Boston Celtics") (PyStr "los angeles lakers")
      ambiguous_stats = Ok merged
    /\ df_columns merged = sort String.leb feature_labels
    /\ Forall (fun col => List.length (snd col) = 2%nat) merged.
Proof.
  apply (create_prediction_df_cross_join
           (PyStr "Boston Celtics") (PyStr "los angeles lakers")
           ambiguous_stats
           [ ("efg_pct_h", [CFloat 0.53]); ("tov_pct_h", [CFloat 11.5]);
             ("orb_pct_h", [CFloat 21]); ("ft_rate_h", [CFloat 0.19]);
             ("opp_efg_pct_h", [CFloat 0.5]); ("opp_tov_pct_h", [CFloat 12]);
             ("drb_pct_h", [CFloat 77]); ("opp_ft_rate_h", [CFloat 0.18]) ]
           [ ("efg_pct_a", [CFloat 0.52; CFloat 0.51]);
             ("tov_pct_a", [CFloat 12.5; CFloat 13.5]);
             ("orb_pct_a", [CFloat 22; CFloat 23]);
             ("ft_rate_a", [CFloat 0.2; CFloat 0.21]);
             ("opp_efg_pct_a", [CFloat 0.51; CFloat 0.52]);
             ("opp_tov_pct_a", [CFloat 13; CFloat 14]);
             ("drb_pct_a", [CFloat 78; CFloat 79]);
             ("opp_ft_rate_a", [CFloat 0.19; CFloat 0.2]) ]);
    reflexivity.
Defined.

(* ===================================================================== *)
(** ** More on [predict_game] *)
(* ===================================================================== *)

Lemma get_team_name_inv (team v : pyval) :
  get_team_name team = Ok v ->
  exists s,
    team = PyStr s
    /\ (v = PyNone
        \/ exists c, v = PyStr c /\ In c canonical_names
                     /\ lower s = lower c).
Proof.
  destruct team as [s | l |]; try discriminate.
  intros H. exists s. split; [reflexivity|].
  destruct v as [c | l |].
  - right. exists c. split; [reflexivity|].
    unfold get_team_name in H. apply get_team_name_loop_found in H.
    destruct H as (before & after & Hl & Hm & _).
    split; [|exact Hm]. unfold canonical_names. rewrite Hl.
    apply in_or_app. right. now left.
  - exfalso. unfold get_team_name in H. revert H.
    induction br_references.members as [| t rest IH];
      cbn [get_team_name_loop py_lower bind]; [discriminate|].
    destruct (String.eqb _ _); [discriminate | exact IH].
  - now left.
Qed.

(** The extractor cannot lower-case [None]. *)
Lemma get_team_ff_of_none (ff_df : DataFrame) (home : bool) :
  get_team_ff PyNone ff_df home = Raise AttributeError.
Proof.
  unfold get_team_ff, df_getattr.
  destruct (df_get ff_df "team_name") as [names |]; [|reflexivity].
  cbn [bind]. destruct (series_str names) as [n | e] eqn:Hs; [reflexivity|].
  now rewrite (series_str_raises _ _ Hs).
Qed.

Lemma create_prediction_df_inv (home_tm away_tm : pyval)
    (ff_df pred_df : DataFrame) :
  create_prediction_df home_tm away_tm ff_df = Ok pred_df ->
  exists h a, home_tm = PyStr h /\ away_tm = PyStr a.
Proof.
  unfold create_prediction_df. intros H.
  destruct (get_team_ff home_tm ff_df true) as [hf |] eqn:Hh; [|discriminate].
  cbn [bind] in H.
  destruct (get_team_ff away_tm ff_df false) as [af |] eqn:Ha; [|discriminate].
  destruct (get_team_ff_inv _ _ _ _ Hh) as (h & _ & _ & _ & _ & _ & _ & _ & _ & _ & -> & _).
  destruct (get_team_ff_inv _ _ _ _ Ha) as (a & _ & _ & _ & _ & _ & _ & _ & _ & _ & -> & _).
  now exists h, a.
Qed.

Section GameFacts.

Variable env : Collaborators.

(** X7. A home team name that matches no canonical team makes
    [predict_game] raise [AttributeError], once the model is fitted, the
    away name is a string and the stats table is read: the resolver hands
    back [None] without complaint and the failure only shows when the
    extractor lower-cases it. *)
Theorem predict_game_unknown_home (start_time : datetime.t) (home : string)
    (away_tm : pyval) (line : R) (year : Z) (reg : lm.Regression)
    (away : pyval) (table ff_df : DataFrame) :
  lm_main env year = Ok reg ->
  Forall (fun d => lower home <> lower d) canonical_names ->
  get_team_name away_tm = Ok away ->
  read_sql_table env ("misc_stats_" ++ str_of_int year) = Ok table ->
  df_getitem_list table (four_factors_list env) = Ok ff_df ->
  get_team_name (PyStr home) = Ok PyNone
  /\ predict_game env start_time (PyStr home) away_tm line year
     = Raise AttributeError.
Proof.
  intros H1 Hn H3 H4 H5.
  assert (H2 : get_team_name (PyStr home) = Ok PyNone)
    by (apply get_team_name_loop_none; exact Hn).
  split; [exact H2|].
  unfold predict_game.
  rewrite H1; cbn [bind]. rewrite H2; cbn [bind]. rewrite H3; cbn [bind].
  rewrite H4; cbn [bind]. rewrite H5; cbn [bind].
  unfold create_prediction_df. now rewrite get_team_ff_of_none.
Qed.

(** X8. A result returned by [predict_game] records the start time and
    the line it was given, and as teams the canonical names that the two
    inputs resolve to, which equal the inputs up to case. Its tag is
    ["cdf"] with the prediction above the negated line, or ["sf"] with the
    prediction below it. *)
Theorem predict_game_result (start_time : datetime.t)
    (home_tm away_tm : pyval) (line : R) (year : Z)
    (r : PredictionResult.t) :
  predict_game env start_time home_tm away_tm line year = Ok r ->
  PredictionResult.start_time r = start_time
  /\ PredictionResult.line r = line
  /\ (exists h c, home_tm = PyStr h
                  /\ PredictionResult.home_team r = PyStr c
                  /\ In c canonical_names /\ lower h = lower c)
  /\ (exists a c, away_tm = PyStr a
                  /\ PredictionResult.away_team r = PyStr c
                  /\ In c canonical_names /\ lower a = lower c)
  /\ ((PredictionResult.function r = "cdf"
       /\ (- line < PredictionResult.prediction r)%R)
      \/ (PredictionResult.function r = "sf"
          /\ (PredictionResult.prediction r < - line)%R)).
Proof.
  unfold predict_game. intros H.
  destruct (lm_main env year) as [reg |]; [|discriminate].
  cbn [bind] in H.
  destruct (get_team_name home_tm) as [home |] eqn:Hh; [|discriminate].
  cbn [bind] in H.
  destruct (get_team_name away_tm) as [away |] eqn:Ha; [|discriminate].
  cbn [bind] in H.
  destruct (read_sql_table env _) as [table |]; [|discriminate].
  cbn [bind] in H.
  destruct (df_getitem_list table _) as [ff_df |]; [|discriminate].
  cbn [bind] in H.
  destruct (create_prediction_df home away ff_df) as [pred_df |] eqn:Hp;
    [|discriminate].
  cbn [bind] in H.
  destruct (get_prediction reg pred_df) as [prediction |]; [|discriminate].
  cbn [bind] in H.
  destruct (create_prediction_df_inv _ _ _ _ Hp) as (hc & ac & -> & ->).
  destruct (get_team_name_inv _ _ Hh) as (h & -> & [Hx | (c & Hc & Hin & Hl)]);
    [discriminate|]. injection Hc as <-.
  destruct (get_team_name_inv _ _ Ha) as (a & -> & [Hx | (c & Hc & Hin' & Hl')]);
    [discriminate|]. injection Hc as <-.
  destruct (Rtotal_order prediction (- line)) as [Hlt | [Heq | Hgt]].
  - rewrite (line_probability_sf _ _ _ Hlt) in H. injection H as <-.
    cbn. repeat split; eauto 10.
  - rewrite (line_probability_eq _ _ _ Heq) in H. discriminate.
  - rewrite (line_probability_cdf _ _ _ Hgt) in H. injection H as <-.
    cbn. repeat split; eauto 10.
Qed.

(** X9. With a fitted model whose residual standard deviation is above
    zero, the probability in a result returned by [predict_game] is never
    above 0.5. *)
Theorem predict_game_probability_below_half (start_time : datetime.t)
    (home_tm away_tm : pyval) (line : R) (year : Z) (reg : lm.Regression)
    (r : PredictionResult.t) :
  lm_main env year = Ok reg ->
  (0 < lm.residuals_std reg)%R ->
  predict_game env start_time home_tm away_tm line year = Ok r ->
  (PredictionResult.probability r <= 1 / 2)%R.
Proof.
  intros Hreg Hstd. unfold predict_game. rewrite Hreg. cbn [bind]. intros H.
  destruct (get_team_name home_tm) as [home |]; [|discriminate].
  cbn [bind] in H.
  destruct (get_team_name away_tm) as [away |]; [|discriminate].
  cbn [bind] in H.
  destruct (read_sql_table env _) as [table |]; [|discriminate].
  cbn [bind] in H.
  destruct (df_getitem_list table _) as [ff_df |]; [|discriminate].
  cbn [bind] in H.
  destruct (create_prediction_df home away ff_df) as [pred_df |];
    [|discriminate].
  cbn [bind] in H.
  destruct (get_prediction reg pred_df) as [prediction |]; [|discriminate].
  cbn [bind] in H.
  destruct (Rtotal_order prediction (- line)) as [Hlt | [Heq | Hgt]].
  - rewrite (line_probability_sf _ _ _ Hlt) in H. injection H as <-.
    cbn. left. now apply sf_above_mean.
  - rewrite (line_probability_eq _ _ _ Heq) in H. discriminate.
  - rewrite (line_probability_cdf _ _ _ Hgt) in H. injection H as <-.
    cbn. left. now apply cdf_below_mean.
Qed.

End GameFacts.

Lemma sample_game_returns :
  predict_game sample_env opening_night
    (PyStr "Boston Celtics") (PyStr "los angeles lakers") 4 2019
  = Ok (PredictionResult.mk opening_night
          (PyStr "BOSTON CELTICS") (PyStr "LOS ANGELES LAKERS") 4 4
          (Norm.cdf 4 13 (- 4)) "cdf").
Proof.
  erewrite predict_game_steps with (prediction := 4%R); try reflexivity.
  rewrite line_probability_cdf by lra. reflexivity.
Qed.

Lemma predict_game_unknown_home_witness :
  get_team_name (PyStr "Seattle") = Ok PyNone
  /\ predict_game sample_env opening_night (PyStr "Seattle")
       (PyStr "Boston Celtics") 4 2019
     = Raise AttributeError.
Proof.
  apply (predict_game_unknown_home sample_env opening_night "Seattle"
           (PyStr "Boston Celtics") 4 2019 sample_model
           (PyStr "BOSTON CELTICS") sample_stats sample_stats);
    try reflexivity.
  apply get_team_name_loop_none. reflexivity.
Defined.

Lemma predict_game_result_witness :
  PredictionResult.function
    (PredictionResult.mk opening_night
       (PyStr "BOSTON CELTICS") (PyStr "LOS ANGELES LAKERS") 4 4
       (Norm.cdf 4 13 (- 4)) "cdf") = "cdf"
  /\ (- 4 < 4)%R.
Proof.
  destruct (predict_game_result sample_env opening_night
              (PyStr "Boston Celtics") (PyStr "los angeles lakers") 4 2019 _
              sample_game_returns)
    as (_ & _ & _ & _ & [Hc | [Hs _]]).
  - exact Hc.
  - discriminate Hs.
Defined.

Lemma predict_game_probability_below_half_witness :
  (Norm.cdf 4 13 (- 4) <= 1 / 2)%R.
Proof.
  apply (predict_game_probability_below_half sample_env opening_night
           (PyStr "Boston Celtics") (PyStr "los angeles lakers") 4 2019
           sample_model
           (PredictionResult.mk opening_night
              (PyStr "BOSTON CELTICS") (PyStr "LOS ANGELES LAKERS") 4 4
              (Norm.cdf 4 13 (- 4)) "cdf")).
  - reflexivity.
  - cbn. lra.
  - exact sample_game_returns.
Defined.

(* ===================================================================== *)
(** ** More on [predict_games_on_day] *)
(* ===================================================================== *)

Section DayFacts.

Variable env : Collaborators.

(** X10. [predict_games_on_day] predicts nothing and raises before the
    schedule is looked at when the date cannot be built: [OverflowError]
    when the day, month or year does not fit a C integer, [ValueError] when
    they fit but name no calendar date, and [OverflowError] for the last
    day of year 9999, whose following day does not exist. *)
Theorem predict_games_on_day_bad_date (day month year : Z)
    (sched_df : list Sched.row) (lines : bool) :
  ((datetime.c_int year && datetime.c_int month && datetime.c_int day)%bool
   = false ->
   predict_games_on_day env day month year sched_df lines
   = ([], Raise OverflowError))
  /\ ((datetime.c_int year && datetime.c_int month && datetime.c_int day)%bool
      = true ->
      datetime.valid_date year month day = false ->
      predict_games_on_day env day month year sched_df lines
      = ([], Raise ValueError))
  /\ (year = 9999%Z -> month = 12%Z -> day = 31%Z ->
      predict_games_on_day env day month year sched_df lines
      = ([], Raise OverflowError)).
Proof.
  split; [|split].
  - intros Hc. unfold predict_games_on_day, datetime.make. now rewrite Hc.
  - intros Hc Hv. unfold predict_games_on_day, datetime.make.
    now rewrite Hc, Hv.
  - intros -> -> ->. reflexivity.
Qed.

(** X11. Without lines, on a date with at least one game,
    [predict_games_on_day] predicts nothing: the first call is given the
    list [["home_team"]] where the home team of the row belongs, and it
    raises, [AttributeError] when the model could be fitted and the error
    of the fitting otherwise; no later game is tried. *)
Theorem predict_games_on_day_no_lines_raises (day month year : Z)
    (sched_df : list Sched.row) (date next_day : datetime.t)
    (game : Sched.row) (games : list Sched.row) :
  datetime.make year month day = Ok date ->
  datetime.add_one_day date = Ok next_day ->
  games_on_date date next_day sched_df = game :: games ->
  predict_games_on_day env day month year sched_df false
  = ([no_lines_call game],
     match lm_main env 2019 with
     | Ok _ => Raise AttributeError
     | Raise e => Raise e
     end).
Proof.
  intros Hm Hn Hg. unfold predict_games_on_day. rewrite Hm, Hn, Hg.
  cbn [List.length Nat.ltb Nat.leb predict_rows].
  unfold run_call, predict_game.
  cbn [arg_start_time arg_home_tm arg_away_tm arg_line].
  destruct (lm_main env 2019); reflexivity.
Qed.

(** X12. With lines, a game whose prediction raises ends the whole day:
    the games before it have been predicted, the games after it are not
    tried, and the exception of that game is what [predict_games_on_day]
    raises. *)
Theorem predict_games_on_day_first_failure (day month year : Z)
    (sched_df : list Sched.row) (date next_day : datetime.t)
    (before after : list Sched.row) (game : Sched.row) (e : exn) :
  datetime.make year month day = Ok date ->
  datetime.add_one_day date = Ok next_day ->
  games_on_date date next_day sched_df = (before ++ game :: after)%list ->
  Forall (fun r => is_ok (run_call env (lines_call r)) = true) before ->
  run_call env (lines_call game) = Raise e ->
  predict_games_on_day env day month year sched_df true
  = (map lines_call (before ++ [game]), Raise e).
Proof.
  intros Hm Hn Hg Hb He.
  rewrite (predict_games_on_day_lines_eq env day month year sched_df
             date next_day Hm Hn).
  - rewrite Hg, (predict_rows_first_failure env lines_call before after
                   game e Hb He).
    reflexivity.
  - rewrite Hg. destruct before; discriminate.
Qed.

End DayFacts.

Lemma predict_games_on_day_bad_date_witness :
  predict_games_on_day sample_env 30 2 2019 sample_sched true
  = ([], Raise ValueError)
  /\ predict_games_on_day sample_env 1 1 2147483648 sample_sched true
     = ([], Raise OverflowError).
Proof.
  split.
  - apply (proj1 (proj2 (predict_games_on_day_bad_date
                           sample_env 30 2 2019 sample_sched true)));
      reflexivity.
  - apply (proj1 (predict_games_on_day_bad_date
                    sample_env 1 1 2147483648 sample_sched true));
      reflexivity.
Defined.

Lemma predict_games_on_day_no_lines_raises_witness :
  predict_games_on_day sample_env 17 10 2018 sample_sched false
  = ([no_lines_call (Sched.mk 1 opening_night
                       "Boston Celtics" "Philadelphia 76ers")],
     Raise AttributeError).
Proof.
  apply (predict_games_on_day_no_lines_raises sample_env 17 10 2018
           sample_sched opening_night next_morning
           (Sched.mk 1 opening_night "Boston Celtics" "Philadelphia 76ers")
           [Sched.mk 2 (datetime.mk 2018 10 17 22 30 0 0)
              "Los Angeles Lakers" "Boston Celtics"]);
    reflexivity.
Defined.

Lemma broken_sched_first_returns :
  is_ok (run_call sample_env
           (lines_call (Sched.mk 1 (datetime.mk 2018 10 17 19 0 0 0)
                          "Boston Celtics" "Philadelphia 76ers"))) = true.
Proof.
  unfold run_call, lines_call. cbn [arg_start_time arg_home_tm arg_away_tm
    arg_line Sched.start_time Sched.home_team Sched.away_team].
  erewrite predict_game_steps with (prediction := 4%R); try reflexivity.
  rewrite line_probability_cdf by lra. reflexivity.
Qed.

Lemma predict_games_on_day_first_failure_witness :
  predict_games_on_day sample_env 17 10 2018 broken_sched true
  = (map lines_call (firstn 2 broken_sched), Raise AttributeError).
Proof.
  apply (predict_games_on_day_first_failure sample_env 17 10 2018 broken_sched
           opening_night next_morning
           [Sched.mk 1 (datetime.mk 2018 10 17 19 0 0 0)
              "Boston Celtics" "Philadelphia 76ers"]
           [Sched.mk 3 (datetime.mk 2018 10 17 22 30 0 0)
              "Los Angeles Lakers" "Boston Celtics"]
           (Sched.mk 2 (datetime.mk 2018 10 17 20 0 0 0)
              "Seattle" "Boston Celtics")
           AttributeError).
  - reflexivity.
  - reflexivity.
  - reflexivity.
  - constructor; [exact broken_sched_first_returns | constructor].
  - reflexivity.
Defined.

(* ===================================================================== *)
(** ** The console report *)
(* ===================================================================== *)

(** X14. The console report prints nothing when the prediction is exactly
    zero, and otherwise two sentences, the projection and then the line
    sentence. Whenever [line_probability] returns a pair, the line sentence
    is the CDF one exactly when the tag is ["cdf"] and the SF one exactly
    when the tag is ["sf"]. *)
Theorem console_output_agrees_with_tag (home_tm away_tm : pyval)
    (line prediction std : R) :
  (prediction = 0%R ->
   forall probability,
     prediction_result_console_output home_tm away_tm line prediction
       probability = [])
  /\ (prediction <> 0%R ->
      forall probability tag,
        line_probability prediction line std = LPPair probability tag ->
        exists projection,
          (projection = ProjectedToBeat home_tm away_tm prediction
           \/ projection = ProjectedToLose home_tm away_tm prediction)
          /\ ((tag = "cdf"
               /\ prediction_result_console_output home_tm away_tm line
                    prediction probability
                  = [projection; LineCDF line probability])
              \/ (tag = "sf"
                  /\ prediction_result_console_output home_tm away_tm line
                       prediction probability
                     = [projection; LineSF line probability]))).
Proof.
  split.
  - intros -> probability. unfold prediction_result_console_output.
    destruct (Rlt_dec 0 0) as [H | _]; [lra|]. reflexivity.
  - intros Hne probability tag Hlp.
    unfold prediction_result_console_output.
    destruct (Rtotal_order prediction (- line)) as [H | [H | H]].
    + rewrite (line_probability_sf _ _ _ H) in Hlp. injection Hlp as _ <-.
      destruct (Rlt_dec (-1 * line) prediction) as [Hc | _]; [lra|].
      destruct (Rlt_dec 0 prediction), (Rlt_dec prediction 0); try lra;
        eexists; (split; [|right; split; reflexivity]); auto.
    + rewrite (line_probability_eq _ _ _ H) in Hlp. discriminate.
    + rewrite (line_probability_cdf _ _ _ H) in Hlp. injection Hlp as _ <-.
      destruct (Rlt_dec (-1 * line) prediction) as [_ | Hc]; [|lra].
      destruct (Rlt_dec 0 prediction), (Rlt_dec prediction 0); try lra;
        eexists; (split; [|left; split; reflexivity]); auto.
Qed.

(* ===================================================================== *)
(** ** The tables of [br_references] *)
(* ===================================================================== *)

(** X15. Every team of the enumeration has an abbreviation in
    [team_to_team_abbreviation], and [TEAM_ABBREVIATIONS_TO_TEAM] maps that
    abbreviation back to the team: name to abbreviation to team is a round
    trip on the whole enumeration. In particular the lookup never misses on
    a name returned by [get_team_name]. *)
Theorem team_abbreviation_round_trip :
  (forall t : br_references.Team,
      exists abbr,
        pydict.get br_references.team_to_team_abbreviation
          (br_references.value t) = Some abbr
        /\ pydict.get br_references.TEAM_ABBREVIATIONS_TO_TEAM abbr = Some t)
  /\ (forall input c,
        get_team_name (PyStr input) = Ok (PyStr c) ->
        exists abbr t,
          pydict.get br_references.team_to_team_abbreviation c = Some abbr
          /\ pydict.get br_references.TEAM_ABBREVIATIONS_TO_TEAM abbr = Some t
          /\ br_references.value t = c).
Proof.
  assert (Hrt : forall t : br_references.Team,
             exists abbr,
               pydict.get br_references.team_to_team_abbreviation
                 (br_references.value t) = Some abbr
               /\ pydict.get br_references.TEAM_ABBREVIATIONS_TO_TEAM abbr
                  = Some t)
    by (intros t; destruct t; eexists; split; reflexivity).
  split; [exact Hrt|].
  intros input c H.
  destruct (get_team_name_inv _ _ H) as (s & _ & [Hx | (c' & Hc & Hin & _)]);
    [discriminate|].
  injection Hc as <-. unfold canonical_names in Hin.
  apply in_map_iff in Hin. destruct Hin as (t & <- & _).
  destruct (Hrt t) as (abbr & H1 & H2).
  now exists abbr, t.
Qed.

(** X16. The other way round, abbreviation to team to abbreviation gives
    back every abbreviation of [TEAM_ABBREVIATIONS_TO_TEAM] but ["CHH"],
    which comes back as ["CHO"]: both name the Charlotte Hornets. The keys
    of both tables are pairwise distinct. *)
Theorem abbreviation_round_trip_but_CHH :
  (forall abbr t,
      pydict.get br_references.TEAM_ABBREVIATIONS_TO_TEAM abbr = Some t ->
      pydict.get br_references.team_to_team_abbreviation
        (br_references.value t)
      = Some (if String.eqb abbr "CHH" then "CHO" else abbr))
  /\ NoDup (pydict.keys br_references.TEAM_ABBREVIATIONS_TO_TEAM)
  /\ NoDup (pydict.keys br_references.team_to_team_abbreviation).
Proof.
  split; [|split].
  - intros abbr t H.
    cbv [br_references.TEAM_ABBREVIATIONS_TO_TEAM] in H. cbn [pydict.get] in H.
    repeat match type of H with
           | (if String.eqb ?k abbr then _ else _) = _ =>
               destruct (String.eqb_spec k abbr) as [<- | _];
               [injection H as <-; reflexivity|]
           end.
    discriminate.
  - apply (NoDup_count_occ' string_dec). intros x Hx.
    cbn in Hx. split_in Hx; reflexivity.
  - apply (NoDup_count_occ' string_dec). intros x Hx.
    cbn in Hx. split_in Hx; reflexivity.
Qed.

Lemma df_has_column (df : DataFrame) (name : string) :
  In name (df_columns df) -> df_has df name = true.
Proof.
  unfold df_has. induction df as [| [n s] rest IH]; [intros []|].
  cbn [df_columns map fst In df_get].
  destruct (String.eqb_spec n name) as [_ | Hne]; [reflexivity|].
  intros [H | H]; [contradiction | now apply IH].
Qed.

(** X17. A well-formed table whose columns are the scraped headers of
    [data_stat_headers], with a string among the entries of its [team_name]
    column, has all that the extraction reads: for every team name the
    extraction raises nothing and returns as many rows as match the team
    up to case. *)
Theorem get_team_ff_on_misc_stats (team : string) (ff_df : DataFrame)
    (home : bool) :
  df_wf ff_df ->
  df_columns ff_df = br_references.data_stat_headers ->
  (forall names, df_get ff_df "team_name" = Some names ->
                 existsb is_str names = true) ->
  exists names team_ff,
    df_get ff_df "team_name" = Some names
    /\ get_team_ff (PyStr team) ff_df home = Ok team_ff
    /\ Forall (fun col => List.length (snd col) = matching_rows names team)
              team_ff.
Proof.
  intros Hwf Hc Hstr.
  assert (Hhas : forall n, In n br_references.data_stat_headers ->
                           df_has ff_df n = true).
  { intros n Hn. apply df_has_column. now rewrite Hc. }
  destruct (df_get ff_df "team_name") as [names |] eqn:Hnames.
  2:{ assert (H := Hhas "team_name" (or_introl eq_refl)).
      unfold df_has in H. rewrite Hnames in H. discriminate. }
  destruct (df_getitem_list_mask ff_df (team_mask names (lower team))
              br_references.four_factors Hwf) as (out & Hout & _ & Hl).
  - unfold team_mask. rewrite length_map.
    unfold df_wf in Hwf. rewrite Forall_forall in Hwf.
    exact (Hwf _ (df_get_in _ _ _ Hnames)).
  - repeat constructor; apply Hhas; cbn; tauto.
  - exists names, (df_rename (role_suffix home) out). split; [reflexivity|].
    unfold get_team_ff, df_getattr. rewrite Hnames. cbn [bind].
    rewrite (series_str_with_string _ (Hstr names eq_refl)).
    cbn [bind py_lower]. rewrite Hout. cbn [bind]. split.
    + destruct home; reflexivity.
    + unfold matching_rows, df_rename. rewrite Forall_map. exact Hl.
Qed.

Lemma get_team_ff_on_misc_stats_witness :
  exists names team_ff,
    df_get sample_misc_stats "team_name" = Some names
    /\ get_team_ff (PyStr "boston celtics") sample_misc_stats true
       = Ok team_ff
    /\ Forall (fun col => List.length (snd col)
                          = matching_rows names "boston celtics") team_ff.
Proof.
  apply (get_team_ff_on_misc_stats "boston celtics" sample_misc_stats true).
  - unfold df_wf. cbv [sample_misc_stats br_references.data_stat_headers].
    cbn [map]. repeat constructor.
  - reflexivity.
  - intros names Hn. cbv in Hn. injection Hn as <-. reflexivity.
Defined.

(* ===================================================================== *)
(** ** [db_interface]: dicts of types and column definitions *)
(* ===================================================================== *)

Lemma pydict_get_set_same (V : Type) (d : pydict.t V) (k : string) (v : V) :
  pydict.get (pydict.set d k v) k = Some v.
Proof.
  induction d as [| [k' w] rest IH]; cbn [pydict.set pydict.get].
  - now rewrite String.eqb_refl.
  - destruct (String.eqb_spec k' k) as [-> | Hne]; cbn [pydict.get].
    + now rewrite String.eqb_refl.
    + destruct (String.eqb_spec k' k); [contradiction | exact IH].
Qed.

Lemma pydict_get_set_other (V : Type) (d : pydict.t V) (k k' : string)
    (v : V) :
  k <> k' -> pydict.get (pydict.set d k v) k' = pydict.get d k'.
Proof.
  intros Hne. induction d as [| [k0 w] rest IH]; cbn [pydict.set pydict.get].
  - destruct (String.eqb_spec k k'); [contradiction | reflexivity].
  - destruct (String.eqb_spec k0 k) as [-> | Hne0]; cbn [pydict.get].
    + destruct (String.eqb_spec k k'); [contradiction | reflexivity].
    + destruct (String.eqb_spec k0 k'); [reflexivity | exact IH].
Qed.

Lemma pydict_set_fresh (V : Type) (d : pydict.t V) (k : string) (v : V) :
  ~ In k (pydict.keys d) -> pydict.set d k v = (d ++ [(k, v)])%list.
Proof.
  induction d as [| [k' w] rest IH]; intros Hn; [reflexivity|].
  cbn [pydict.set app]. cbn [pydict.keys map fst In] in Hn.
  destruct (String.eqb_spec k' k) as [-> | Hne]; [tauto|].
  f_equal. apply IH. unfold pydict.keys. tauto.
Qed.

Lemma pydict_get_keys (V : Type) (d : pydict.t V) (k : string) :
  In k (pydict.keys d) <-> pydict.get d k <> None.
Proof.
  induction d as [| [k' w] rest IH]; cbn [pydict.keys map fst In pydict.get].
  - tauto.
  - destruct (String.eqb_spec k' k) as [-> | Hne].
    + split; [discriminate | now left].
    + rewrite <- IH. unfold pydict.keys. tauto.
Qed.

Lemma pydict_get_item (V : Type) (d : pydict.t V) :
  NoDup (pydict.keys d) ->
  Forall (fun kv => pydict.get d (fst kv) = Some (snd kv)) d.
Proof.
  induction d as [| [k v] rest IH]; intros Hnd; [constructor|].
  cbn [pydict.keys map fst] in Hnd. inversion Hnd as [| ? ? Hnotin Hnd']; subst.
  constructor.
  - cbn. now rewrite String.eqb_refl.
  - specialize (IH Hnd'). rewrite Forall_forall in *. intros [k' v'] Hin.
    cbn [fst snd pydict.get].
    destruct (String.eqb_spec k k') as [-> | _].
    + exfalso. apply Hnotin. apply in_map_iff. now exists (k', v').
    + exact (IH _ Hin).
Qed.

Lemma pydict_of_items_nodup (V : Type) (items : list (string * V)) :
  NoDup (map fst items) -> pydict.of_items items = items.
Proof.
  unfold pydict.of_items. intros Hnd.
  assert (H : forall acc : pydict.t V,
             NoDup (map fst (acc ++ items)) ->
             fold_left (fun d kv => pydict.set d (fst kv) (snd kv)) items acc
             = (acc ++ items)%list).
  { clear Hnd. induction items as [| [k v] rest IH]; intros acc Hn;
      cbn [fold_left fst snd].
    - now rewrite app_nil_r.
    - rewrite pydict_set_fresh.
      + rewrite IH; rewrite <- app_assoc; [reflexivity | exact Hn].
      + rewrite map_app in Hn. cbn [map fst] in Hn.
        apply NoDup_remove_2 in Hn. intros Hin. apply Hn.
        apply in_or_app. now left. }
  exact (H [] Hnd).
Qed.

Lemma py_type_to_sql_type_loop_ok (py_types : pydict.t string)
    (items : list (string * string)) (acc : pydict.t db_interface.sql_type)
    (sqls : list db_interface.sql_type) :
  Forall (fun kv => pydict.get py_types (fst kv) = Some (snd kv)) items ->
  NoDup (map fst acc ++ map fst items) ->
  map sql_type_of (map snd items) = map Some sqls ->
  db_interface.py_type_to_sql_type_loop py_types (map fst items) acc
  = Ok (acc ++ combine (map fst items) sqls)%list.
Proof.
  revert acc sqls.
  induction items as [| [k ty] rest IH]; intros acc sqls Hget Hnd Hsql.
  - destruct sqls; [|discriminate]. cbn. now rewrite app_nil_r.
  - destruct sqls as [| t sqls]; [discriminate|].
    cbn [map fst snd] in *. injection Hsql as Ht Hsql.
    inversion Hget as [| ? ? Hk Hrest]; subst. cbn [fst snd] in Hk.
    cbn [db_interface.py_type_to_sql_type_loop].
    unfold pydict.getitem. rewrite Hk. cbn [bind].
    assert (Hfresh : ~ In k (pydict.keys acc)).
    { apply NoDup_remove_2 in Hnd. intros Hin. apply Hnd.
      apply in_or_app. now left. }
    assert (Hnd' : NoDup (map fst (acc ++ [(k, t)]) ++ map fst rest)).
    { rewrite map_app, <- app_assoc. exact Hnd. }
    unfold sql_type_of in Ht.
    destruct (String.eqb ty "integer");
      [|destruct (String.eqb ty "float");
        [|destruct (String.eqb ty "string"); [|discriminate]]];
      injection Ht as <-;
      rewrite (pydict_set_fresh _ acc k _ Hfresh);
      rewrite (IH _ sqls Hrest Hnd' Hsql);
      cbn [combine]; now rewrite <- app_assoc.
Qed.

Lemma py_type_to_sql_type_loop_raises (py_types : pydict.t string)
    (before after : list (string * string)) (k ty : string)
    (acc : pydict.t db_interface.sql_type) :
  Forall (fun kv => pydict.get py_types (fst kv) = Some (snd kv)) before ->
  Forall (fun kv => sql_type_of (snd kv) <> None) before ->
  pydict.get py_types k = Some ty ->
  sql_type_of ty = None ->
  db_interface.py_type_to_sql_type_loop py_types
    (map fst (before ++ (k, ty) :: after)) acc
  = Raise (py_type_error ty).
Proof.
  revert acc.
  induction before as [| [k0 ty0] rest IH]; intros acc Hget Hok Hk Hty;
    cbn [app map fst db_interface.py_type_to_sql_type_loop].
  - unfold pydict.getitem. rewrite Hk. cbn [bind].
    unfold sql_type_of in Hty.
    destruct (String.eqb ty "integer"); [discriminate|].
    destruct (String.eqb ty "float"); [discriminate|].
    destruct (String.eqb ty "string"); [discriminate|]. reflexivity.
  - inversion Hget as [| ? ? Hk0 Hrest]; subst. cbn [fst snd] in Hk0.
    inversion Hok as [| ? ? Hok0 Hokrest]; subst. cbn [snd] in Hok0.
    unfold pydict.getitem. rewrite Hk0. cbn [bind].
    unfold sql_type_of in Hok0.
    destruct (String.eqb ty0 "integer"); [now apply IH|].
    destruct (String.eqb ty0 "float"); [now apply IH|].
    destruct (String.eqb ty0 "string"); [now apply IH|]. contradiction.
Qed.

(** X18. On a dict whose values are all among ["integer"], ["float"] and
    ["string"], [py_type_to_sql_type] returns a dict with the same keys in
    the same order, each carrying the SQL type its Python type name stands
    for. *)
Theorem py_type_to_sql_type_converts (py_types : pydict.t string)
    (sqls : list db_interface.sql_type) :
  NoDup (pydict.keys py_types) ->
  map sql_type_of (map snd py_types) = map Some sqls ->
  db_interface.py_type_to_sql_type py_types
  = Ok (combine (pydict.keys py_types) sqls).
Proof.
  intros Hnd Hsql. unfold db_interface.py_type_to_sql_type, pydict.keys.
  rewrite (py_type_to_sql_type_loop_ok py_types py_types [] sqls).
  - reflexivity.
  - now apply pydict_get_item.
  - exact Hnd.
  - exact Hsql.
Qed.

Lemma py_type_to_sql_type_converts_witness :
  db_interface.py_type_to_sql_type
    [ ("home_team", "string"); ("home_line", "float"); ("final_score", "integer") ]
  = Ok [ ("home_team", db_interface.String_); ("home_line", db_interface.Float);
         ("final_score", db_interface.Integer) ].
Proof.
  apply (py_type_to_sql_type_converts
           [ ("home_team", "string"); ("home_line", "float");
             ("final_score", "integer") ]
           [ db_interface.String_; db_interface.Float; db_interface.Integer ]).
  - repeat constructor; cbn; intuition discriminate.
  - reflexivity.
Defined.

(** X19. As soon as one value of the dict is none of ["integer"],
    ["float"] and ["string"], [py_type_to_sql_type] raises and returns no
    dict at all; the message names the first such value in key order. *)
Theorem py_type_to_sql_type_rejects (before after : pydict.t string)
    (k ty : string) :
  NoDup (pydict.keys (before ++ (k, ty) :: after)%list) ->
  Forall (fun kv => sql_type_of (snd kv) <> None) before ->
  sql_type_of ty = None ->
  db_interface.py_type_to_sql_type (before ++ (k, ty) :: after)%list
  = Raise (PyException
             ("Error: py_type " ++ ty ++ " is not an integer, float, or string")).
Proof.
  intros Hnd Hok Hty. unfold db_interface.py_type_to_sql_type, pydict.keys.
  assert (Hall := pydict_get_item _ _ Hnd).
  apply py_type_to_sql_type_loop_raises.
  - apply Forall_app in Hall. tauto.
  - exact Hok.
  - apply Forall_app in Hall. destruct Hall as [_ Hall].
    now inversion Hall.
  - exact Hty.
Qed.

Lemma py_type_to_sql_type_rejects_witness :
  db_interface.py_type_to_sql_type
    [ ("home_team", "string"); ("correct", "bool"); ("start_time", "datetime") ]
  = Raise (PyException
             "Error: py_type bool is not an integer, float, or string").
Proof.
  apply (py_type_to_sql_type_rejects
           [ ("home_team", "string") ] [ ("start_time", "datetime") ]
           "correct" "bool").
  - repeat constructor; cbn; intuition discriminate.
  - repeat constructor. discriminate.
  - reflexivity.
Defined.

Lemma map_result_ok (A B : Type) (f : A -> result B) (l : list A)
    (bs : list B) :
  map f l = map Ok bs -> db_interface.map_result f l = Ok bs.
Proof.
  revert bs. induction l as [| a l IH]; intros [| b bs] H; try discriminate.
  - reflexivity.
  - cbn [map] in H. injection H as Ha Hl.
    cbn [db_interface.map_result]. rewrite Ha. cbn [bind].
    now rewrite (IH bs Hl).
Qed.

Lemma map_fst_combine (A B : Type) (l : list A) (l' : list B) :
  List.length l = List.length l' -> map fst (combine l l') = l.
Proof.
  revert l'. induction l as [| a l IH]; intros [| b l'] H; try discriminate.
  - reflexivity.
  - cbn. f_equal. apply IH. now injection H.
Qed.

Lemma map_snd_combine (A B : Type) (l : list A) (l' : list B) :
  List.length l = List.length l' -> map snd (combine l l') = l'.
Proof.
  revert l'. induction l as [| a l IH]; intros [| b l'] H; try discriminate.
  - reflexivity.
  - cbn. f_equal. apply IH. now injection H.
Qed.

(** X20. When [general.get_type] names the type of every value of a table
    dictionary as ["integer"], ["float"] or ["string"], [get_sql_type]
    returns a dict with the keys of the table, in the same order, each with
    the SQL type of its value. *)
Theorem get_sql_type_converts (V : Type) (get_type : V -> result string)
    (tbl_dict : pydict.t V) (py_types : list string)
    (sqls : list db_interface.sql_type) :
  NoDup (pydict.keys tbl_dict) ->
  map get_type (map snd tbl_dict) = map Ok py_types ->
  map sql_type_of py_types = map Some sqls ->
  db_interface.get_py_type V get_type tbl_dict
  = Ok (combine (pydict.keys tbl_dict) py_types)
  /\ db_interface.get_sql_type V get_type tbl_dict
     = Ok (combine (pydict.keys tbl_dict) sqls).
Proof.
  intros Hnd Hty Hsql.
  assert (Hlen : List.length (pydict.keys tbl_dict) = List.length py_types).
  { unfold pydict.keys. rewrite length_map.
    rewrite <- (length_map snd), <- (length_map get_type), Hty.
    apply length_map. }
  assert (Hpy : db_interface.get_py_type V get_type tbl_dict
                = Ok (combine (pydict.keys tbl_dict) py_types)).
  { unfold db_interface.get_py_type.
    rewrite (map_result_ok _ _ _ (pydict.keys tbl_dict) py_types).
    - cbn [bind]. rewrite pydict_of_items_nodup; [reflexivity|].
      now rewrite map_fst_combine.
    - rewrite <- Hty. unfold pydict.keys. rewrite !map_map.
      apply map_ext_in. intros [k v] Hin.
      assert (Hall := pydict_get_item _ _ Hnd).
      rewrite Forall_forall in Hall. specialize (Hall _ Hin).
      unfold pydict.getitem. cbn [fst snd] in *. now rewrite Hall. }
  split; [exact Hpy|].
  unfold db_interface.get_sql_type. rewrite Hpy. cbn [bind].
  unfold db_interface.py_type_to_sql_type, pydict.keys.
  rewrite (py_type_to_sql_type_loop_ok _ _ [] sqls).
  - cbn [bind app]. now rewrite map_fst_combine.
  - apply pydict_get_item. unfold pydict.keys.
    now rewrite map_fst_combine.
  - cbn [map app]. now rewrite map_fst_combine.
  - now rewrite map_snd_combine.
Qed.

Lemma get_sql_type_converts_witness :
  db_interface.get_sql_type (list Z)
    (fun column => match column with
                   | [] => Raise TypeError
                   | _ :: _ => Ok "integer"
                   end)
    [ ("wins", [52; 47]%Z); ("losses", [30; 35]%Z) ]
  = Ok [ ("wins", db_interface.Integer); ("losses", db_interface.Integer) ].
Proof.
  apply (get_sql_type_converts (list Z)
           (fun column => match column with
                          | [] => Raise TypeError
                          | _ :: _ => Ok "integer"
                          end)
           [ ("wins", [52; 47]%Z); ("losses", [30; 35]%Z) ]
           [ "integer"; "integer" ]
           [ db_interface.Integer; db_interface.Integer ]).
  - repeat constructor; cbn; intuition discriminate.
  - reflexivity.
  - reflexivity.
Defined.

Lemma create_col_definitions_loop_get (id_type_dict : pydict.t db_interface.sql_type)
    (keys : list string) (acc : pydict.t db_interface.col_spec) :
  (forall k, In k keys -> pydict.get id_type_dict k <> None) ->
  exists out,
    db_interface.create_col_definitions_loop id_type_dict keys acc = Ok out
    /\ forall k,
         pydict.get out k
         = if in_dec string_dec k keys
           then option_map (fun ty => db_interface.Column ty false)
                           (pydict.get id_type_dict k)
           else pydict.get acc k.
Proof.
  revert acc. induction keys as [| key rest IH]; intros acc Hk.
  - exists acc. split; [reflexivity|]. intros k. reflexivity.
  - cbn [db_interface.create_col_definitions_loop]. unfold pydict.getitem.
    destruct (pydict.get id_type_dict key) as [ty |] eqn:Hty.
    2:{ exfalso. apply (Hk key); [now left | exact Hty]. }
    cbn [bind].
    destruct (IH (pydict.set acc key (db_interface.Column ty false)))
      as (out & Hout & Hget).
    { intros k Hin. apply Hk. now right. }
    exists out. split; [exact Hout|].
    intros k. rewrite Hget.
    destruct (in_dec string_dec k rest) as [Hin | Hnin];
      destruct (in_dec string_dec k (key :: rest)) as [Hin' | Hnin'];
      try reflexivity.
    + exfalso. apply Hnin'. now right.
    + destruct Hin' as [-> | Hin']; [|contradiction].
      rewrite pydict_get_set_same, Hty. reflexivity.
    + apply pydict_get_set_other. intros ->. apply Hnin'. now left.
Qed.

(** X21. [create_col_definitions] raises nothing, and in the dict it
    returns every key of [id_type_dict] stands for a plain column of its
    type. The table name under ["__tablename__"] and the integer primary
    key under ["id"] are there only when [id_type_dict] has no key of that
    name: a column called ["id"] takes the place of the primary key. *)
Theorem create_col_definitions_lookup (tbl_name : string)
    (id_type_dict : pydict.t db_interface.sql_type) :
  exists col_specs,
    db_interface.create_col_definitions tbl_name id_type_dict = Ok col_specs
    /\ forall k,
         pydict.get col_specs k
         = match pydict.get id_type_dict k with
           | Some ty => Some (db_interface.Column ty false)
           | None =>
               if String.eqb k "__tablename__"
               then Some (db_interface.TableName tbl_name)
               else if String.eqb k "id"
               then Some (db_interface.Column db_interface.Integer true)
               else None
           end.
Proof.
  unfold db_interface.create_col_definitions.
  destruct (create_col_definitions_loop_get id_type_dict
              (pydict.keys id_type_dict)
              (pydict.of_items
                 [ ("__tablename__", db_interface.TableName tbl_name);
                   ("id", db_interface.Column db_interface.Integer true) ]))
    as (out & Hout & Hget).
  { intros k Hin. now apply pydict_get_keys. }
  exists out. split; [exact Hout|].
  intros k. rewrite Hget.
  destruct (in_dec string_dec k (pydict.keys id_type_dict)) as [Hin | Hnin].
  - apply pydict_get_keys in Hin.
    destruct (pydict.get id_type_dict k); [reflexivity | contradiction].
  - destruct (pydict.get id_type_dict k) eqn:Hk.
    + exfalso. apply Hnin. apply pydict_get_keys. now rewrite Hk.
    + cbn. rewrite (String.eqb_sym k "__tablename__"), (String.eqb_sym k "id").
      reflexivity.
Qed.

Lemma create_col_definitions_loop_fresh
    (id_type_dict : pydict.t db_interface.sql_type)
    (items : list (string * db_interface.sql_type))
    (acc : pydict.t db_interface.col_spec) :
  Forall (fun kv => pydict.get id_type_dict (fst kv) = Some (snd kv)) items ->
  NoDup (map fst acc ++ map fst items) ->
  db_interface.create_col_definitions_loop id_type_dict (map fst items) acc
  = Ok (acc ++ map (fun kv => (fst kv, db_interface.Column (snd kv) false))
                   items)%list.
Proof.
  revert acc. induction items as [| [k ty] rest IH]; intros acc Hget Hnd.
  - cbn. now rewrite app_nil_r.
  - inversion Hget as [| ? ? Hk Hrest]; subst. cbn [fst snd] in Hk.
    cbn [map fst snd db_interface.create_col_definitions_loop] in *.
    unfold pydict.getitem. rewrite Hk. cbn [bind].
    rewrite pydict_set_fresh.
    + rewrite IH; [now rewrite <- app_assoc | exact Hrest|].
      rewrite map_app, <- app_assoc. exact Hnd.
    + apply NoDup_remove_2 in Hnd. intros Hin. apply Hnd.
      apply in_or_app. now left.
Qed.

(** X22. For a dict of column types with no key ["__tablename__"] or
    ["id"], [create_col_definitions] returns the table name first, the
    integer primary key ["id"] second, and then one plain column per key, in
    the order of the keys. *)
Theorem create_col_definitions_layout (tbl_name : string)
    (id_type_dict : pydict.t db_interface.sql_type) :
  NoDup (pydict.keys id_type_dict) ->
  ~ In "__tablename__" (pydict.keys id_type_dict) ->
  ~ In "id" (pydict.keys id_type_dict) ->
  db_interface.create_col_definitions tbl_name id_type_dict
  = Ok (("__tablename__", db_interface.TableName tbl_name)
        :: ("id", db_interface.Column db_interface.Integer true)
        :: map (fun kv => (fst kv, db_interface.Column (snd kv) false))
               id_type_dict).
Proof.
  intros Hnd Ht Hi. unfold db_interface.create_col_definitions, pydict.keys.
  rewrite create_col_definitions_loop_fresh.
  - reflexivity.
  - now apply pydict_get_item.
  - cbn. constructor; [|constructor; [|exact Hnd]].
    + cbn. intros [H | H]; [discriminate | contradiction].
    + exact Hi.
Qed.

Lemma create_col_definitions_layout_witness :
  db_interface.create_col_definitions "predictions_2019"
    [ ("home_team", db_interface.String_); ("home_line", db_interface.Float) ]
  = Ok [ ("__tablename__", db_interface.TableName "predictions_2019");
         ("id", db_interface.Column db_interface.Integer true);
         ("home_team", db_interface.Column db_interface.String_ false);
         ("home_line", db_interface.Column db_interface.Float false) ].
Proof.
  apply (create_col_definitions_layout "predictions_2019"
           [ ("home_team", db_interface.String_);
             ("home_line", db_interface.Float) ]).
  - repeat constructor; cbn; intuition discriminate.
  - cbn. intuition discriminate.
  - cbn. intuition discriminate.
Defined.
